(** * diskaudit: a shallow embedding of [diskaudit.py]

    The script audits disk and database usage of hosted installs.  Its
    collaborators (the filesystem test [os.path.exists] and the external
    commands run through [subprocess.check_output]) are gathered in a
    [world] record; every function of the script is a Rocq function over
    that record.  Python exceptions are threaded through a small error
    monad.

    Numbers.  The script mixes Python [int]s and [float]s.  Every float it
    ever builds comes from [float(<decimal byte count>)] or from adding
    such values, so a float is modelled by the integer it holds
    ([PyFloat z]), and every operation that can round in binary64 rounds
    through [b64_round] (round to nearest, ties to even, on a 53 bit
    significand).  Magnitudes of 2^1024 and more, where Python answers
    [inf] or an [OverflowError], are outside the model. *)

From Stdlib Require Import ZArith List String Ascii Bool Lia Permutation.
From Stdlib Require Import DecimalString DecimalPos.
Import ListNotations.
Open Scope string_scope.
Open Scope Z_scope.

(** ** Python values *)

Inductive pynum : Type :=
| PyInt (z : Z)
| PyFloat (z : Z).

(** [bytes] and [str] objects; [==] between the two kinds is [False]. *)
Inductive pytext : Type :=
| Bytes (s : string)
| Str (s : string).

Inductive exn : Type :=
| IOError            (* alias of OSError *)
| CalledProcessError
| ValueError
| IndexError
| KeyError.

Inductive result (A : Type) : Type :=
| Ok (a : A)
| Raise (e : exn).
Arguments Ok {A} a.
Arguments Raise {A} e.

Definition bind {A B : Type} (m : result A) (k : A -> result B) : result B :=
  match m with
  | Ok a => k a
  | Raise e => Raise e
  end.

Notation "x <- m ;; k" := (bind m (fun x => k))
  (at level 61, m at next level, right associativity).

(** ** Binary64 on integer values *)

Definition b64_round_pos (n : Z) : Z :=
  if n <? 2 ^ 53 then n
  else
    let e := Z.log2 n - 52 in
    let q := n / 2 ^ e in
    let r := n mod 2 ^ e in
    let half := 2 ^ (e - 1) in
    let q' := if r <? half then q
              else if half <? r then q + 1
              else if Z.even q then q else q + 1 in
    q' * 2 ^ e.

Definition b64_round (z : Z) : Z :=
  if z <? 0 then - b64_round_pos (- z) else b64_round_pos z.

(** The integer a number holds, and the float a number converts to. *)
Definition py_val (v : pynum) : Z :=
  match v with PyInt z => z | PyFloat z => z end.

Definition is_float (v : pynum) : bool :=
  match v with PyInt _ => false | PyFloat _ => true end.

Definition to_float (v : pynum) : Z :=
  match v with PyInt z => b64_round z | PyFloat z => z end.

(** [a + b]: exact on two ints, a rounded float sum otherwise. *)
Definition py_add (a b : pynum) : pynum :=
  match a, b with
  | PyInt x, PyInt y => PyInt (x + y)
  | _, _ => PyFloat (b64_round (to_float a + to_float b))
  end.

(** ** Text helpers *)

Definition str_Z (z : Z) : string := NilZero.string_of_int (Z.to_int z).

(** [str(x)] as ['{}'.format(x)] prints it: an int in decimal, an
    integer-valued float (below 10^16 in magnitude) with a trailing [.0]. *)
Definition py_str (v : pynum) : string :=
  match v with
  | PyInt z => str_Z z
  | PyFloat z => str_Z z ++ ".0"
  end.

Definition digit_char (d : Z) : ascii := ascii_of_nat (48 + Z.to_nat d).

Definition is_digit (c : ascii) : bool :=
  let n := nat_of_ascii c in (48 <=? n)%nat && (n <=? 57)%nat.

(** ['{0:.2f}'.format(n / d)] for the exact quotient of [0 <= n] by
    [0 < d]: the hundredths are rounded to nearest, ties to even. *)
Definition fmt_2f (n d : Z) : string :=
  let q := (100 * n) / d in
  let r := (100 * n) mod d in
  let c := if 2 * r <? d then q
           else if d <? 2 * r then q + 1
           else if Z.even q then q else q + 1 in
  str_Z (c / 100) ++ "."
    ++ String (digit_char (c / 10 mod 10)) (String (digit_char (c mod 10)) "").

(** ** Utility functions *)

(** [value / 1024 / ... / 1024] then ['{0:.2f}']: the first division
    turns an int into the nearest float, the others only change the
    exponent. *)
Definition scaled_2f (value : pynum) (scale : Z) : string :=
  fmt_2f (to_float value) scale.

Definition fix_format (value : pynum) : string :=
  let v := py_val value in
  if v <? 1024 then
    py_str value ++ "B"
  else if (1024 <=? v) && (v <? 1048576) then
    scaled_2f value 1024 ++ "K"
  else if (1048576 <=? v) && (v <? 1073741824) then
    scaled_2f value (1024 * 1024) ++ "M"
  else if (1073741824 <=? v) && (v <? 1099511627776) then
    scaled_2f value (1024 * 1024 * 1024) ++ "G"
  else
    scaled_2f value (1024 * 1024 * 1024 * 1024) ++ "T".

(** ** Text of command output *)

Definition text_of (t : pytext) : string :=
  match t with Bytes s => s | Str s => s end.

Definition retext (t : pytext) (s : string) : pytext :=
  match t with Bytes _ => Bytes s | Str _ => Str s end.

(** [a == b] on text objects. *)
Definition py_eq (a b : pytext) : bool :=
  match a, b with
  | Bytes x, Bytes y => String.eqb x y
  | Str x, Str y => String.eqb x y
  | _, _ => false
  end.

(** ASCII whitespace: space, tab, newline, vertical tab, form feed,
    carriage return. *)
Definition is_space (c : ascii) : bool :=
  let n := nat_of_ascii c in
  (n =? 32)%nat || ((9 <=? n)%nat && (n <=? 13)%nat).

Fixpoint lstrip (s : string) : string :=
  match s with
  | String c s' => if is_space c then lstrip s' else s
  | EmptyString => EmptyString
  end.

Fixpoint take_word (s : string) : string :=
  match s with
  | String c s' => if is_space c then EmptyString else String c (take_word s')
  | EmptyString => EmptyString
  end.

Fixpoint rstrip (s : string) : string :=
  match s with
  | String c s' =>
      match rstrip s' with
      | EmptyString => if is_space c then EmptyString else String c EmptyString
      | t => String c t
      end
  | EmptyString => EmptyString
  end.

Definition strip (t : pytext) : pytext := retext t (rstrip (lstrip (text_of t))).

(** [t.split()[0]] *)
Definition first_token (t : pytext) : result pytext :=
  match take_word (lstrip (text_of t)) with
  | EmptyString => Raise IndexError
  | w => Ok (retext t w)
  end.

Fixpoint parse_digits (s : string) (acc : Z) : option Z :=
  match s with
  | EmptyString => Some acc
  | String c s' =>
      if is_digit c
      then parse_digits s' (10 * acc + (Z.of_nat (nat_of_ascii c) - 48))
      else None
  end.

Definition parse_dec (s : string) : option Z :=
  match s with
  | EmptyString => None
  | _ => parse_digits s 0
  end.

(** [float(t)] and [int(t)] on the output of [du] and of the SQL
    aggregate, which print a decimal count or [NULL].  Other spellings
    Python would accept (signs, exponents, [inf], underscores) are not
    produced by these commands and are not modelled. *)
Definition py_float (t : pytext) : result pynum :=
  match parse_dec (text_of t) with
  | Some n => Ok (PyFloat (b64_round n))
  | None => Raise ValueError
  end.

Definition py_int (t : pytext) : result pynum :=
  match parse_dec (text_of t) with
  | Some n => Ok (PyInt n)
  | None => Raise ValueError
  end.

(** ** The collaborators *)

Record world : Type := {
  path_exists : string -> bool;                    (* os.path.exists *)
  check_output : list string -> result pytext      (* subprocess.check_output *)
}.

(** Under python3 (the interpreter of the script's first line)
    [check_output] hands back [bytes]. *)
Definition py3_world (w : world) : Prop :=
  forall cmd out, check_output w cmd = Ok out -> exists s, out = Bytes s.

Definition run_cli_query (w : world) (install query : string) : result pytext :=
  out <- check_output w
           ["wp"; "--path=/nas/content/live/" ++ install; "db"; "query";
            query; "--skip-column-names"] ;;
  Ok (strip out).

Definition run_query (w : world) (query : string) : result pytext :=
  out <- check_output w ["wp"; "db"; "query"; query; "--skip-column-names"] ;;
  Ok (strip out).

Definition check_multisite (w : world) (install : string) : result string :=
  mu <- check_output w
          ["php"; "/nas/wp/www/tools/wpe.php"; "option-get"; install; "mu"] ;;
  Ok (if py_eq mu (Str "1") then "Yes" else "No").

Definition get_innodb_buffer_size (w : world) : result string :=
  out <- run_query w "SELECT @@GLOBAL.innodb_buffer_pool_size;" ;;
  ibp <- py_int out ;;
  Ok (fix_format ibp).

(** ** Auditing functions *)

Definition du_cmd (path : string) : list string := ["du"; "-sb"; path].

(** [float(check_output(cmd).split()[0])] *)
Definition measure (w : world) (cmd : list string) : result pynum :=
  out <- check_output w cmd ;;
  tok <- first_token out ;;
  py_float tok.

(** [try: ... except (IOError): ... = 0] *)
Definition except_IOError (r : result pynum) : result pynum :=
  match r with
  | Raise IOError => Ok (PyInt 0)
  | _ => r
  end.

Definition get_prod_du (w : world) (install : string) : result pynum :=
  if negb (path_exists w ("/nas/content/live/" ++ install)) then Ok (PyInt 0)
  else except_IOError (measure w (du_cmd ("/nas/content/live/" ++ install))).

Definition get_prod_db_du (w : world) (vendor install : string) : result pynum :=
  if String.eqb vendor "google"
  then measure w ["sudo"; "du"; "-sb"; "/nas/mysql/wp_" ++ install]
  else Ok (PyInt 0).

Fixpoint spaces (n : nat) : string :=
  match n with
  | O => EmptyString
  | S k => String " " (spaces k)
  end.

(** The SQL text; the source continues the literal over several lines,
    which keeps each line's indentation ([i], [j], [k] blanks). *)
Definition size_query (i j k : nat) (db : string) : string :=
  "USE information_schema;" ++ spaces i
    ++ "SELECT SUM(data_length + index_length)" ++ spaces j
    ++ "FROM information_schema.TABLES" ++ spaces k
    ++ "WHERE" ++ spaces j
    ++ "table_schema = '" ++ db ++ "' and" ++ spaces j
    ++ "TABLE_TYPE='BASE TABLE';".

Definition get_prod_db_data (w : world) (install : string) : result pynum :=
  let db_name := "wp_" ++ install in
  out <- run_cli_query w install (size_query 21 24 20 db_name) ;;
  py_float out.

Definition get_stage_du (w : world) (install : string) : result pynum :=
  if negb (path_exists w ("/nas/content/staging/" ++ install)) then Ok (PyInt 0)
  else
    stage_du <- except_IOError
                  (measure w (du_cmd ("/nas/content/staging/" ++ install))) ;;
    if py_val stage_du =? 4096 then Ok (PyInt 0) else Ok stage_du.

Definition get_stage_db_data (w : world) (install : string) : result pynum :=
  let db_name := "snapshot_" ++ install in
  stage_db <- run_cli_query w install (size_query 30 34 30 db_name) ;;
  if py_eq stage_db (Str "NULL") then Ok (PyInt 0) else py_int stage_db.

(** ** Per-install records *)

Record install_stats : Type := {
  Multisite : string;
  Production : pynum;
  wp_disk : pynum;
  wp_data : pynum;
  Staging : pynum;
  ss_data : pynum
}.

(** The dict literal of [create_install_stats_dictionary]: its values are
    evaluated in the order written, the first exception ends the run. *)
Definition collect (w : world) (vendor install : string) : result install_stats :=
  mu <- check_multisite w install ;;
  prod <- get_prod_du w install ;;
  disk <- get_prod_db_du w vendor install ;;
  data <- get_prod_db_data w install ;;
  stage <- get_stage_du w install ;;
  ss <- get_stage_db_data w install ;;
  Ok {| Multisite := mu; Production := prod; wp_disk := disk;
        wp_data := data; Staging := stage; ss_data := ss |}.

(** A Python dict keyed by install name: assignment overwrites the entry
    of a key already present and keeps its position. *)
Definition dict : Type := list (string * install_stats).

Fixpoint dict_set (d : dict) (k : string) (v : install_stats) : dict :=
  match d with
  | [] => [(k, v)]
  | (k', v') :: d' =>
      if String.eqb k' k then (k', v) :: d' else (k', v') :: dict_set d' k v
  end.

Fixpoint dict_get (d : dict) (k : string) : option install_stats :=
  match d with
  | [] => None
  | (k', v') :: d' => if String.eqb k' k then Some v' else dict_get d' k
  end.

Fixpoint fill_stats (w : world) (vendor : string) (install_list : list string)
    (d : dict) : result dict :=
  match install_list with
  | [] => Ok d
  | install :: rest =>
      st <- collect w vendor install ;;
      fill_stats w vendor rest (dict_set d install st)
  end.

Definition create_install_stats_dictionary (w : world) (vendor : string)
    (install_list : list string) : result dict :=
  fill_stats w vendor install_list [].

(** ** Summary totals *)

Record sum_dictionary : Type := {
  prod_du_ttl : pynum;
  prod_db_du_ttl : pynum;
  prod_db_ttl : pynum;
  stage_du_ttl : pynum;
  stage_db_ttl : pynum
}.

Definition sum_zero : sum_dictionary :=
  {| prod_du_ttl := PyInt 0; prod_db_du_ttl := PyInt 0; prod_db_ttl := PyInt 0;
     stage_du_ttl := PyInt 0; stage_db_ttl := PyInt 0 |}.

(** The increments in the loop of the branch taken for [amazon]. *)
Definition add_remote (t : sum_dictionary) (st : install_stats) : sum_dictionary :=
  {| prod_du_ttl := py_add (prod_du_ttl t) (Production st);
     prod_db_du_ttl := prod_db_du_ttl t;
     prod_db_ttl := py_add (prod_db_ttl t) (wp_data st);
     stage_du_ttl := py_add (stage_du_ttl t) (Staging st);
     stage_db_ttl := py_add (stage_db_ttl t) (ss_data st) |}.

(** The increments in the loop of the other branch. *)
Definition add_colocated (t : sum_dictionary) (st : install_stats) : sum_dictionary :=
  {| prod_du_ttl := py_add (prod_du_ttl t) (Production st);
     prod_db_du_ttl := py_add (prod_db_du_ttl t) (wp_disk st);
     prod_db_ttl := py_add (prod_db_ttl t) (wp_data st);
     stage_du_ttl := py_add (stage_du_ttl t) (Staging st);
     stage_db_ttl := py_add (stage_db_ttl t) (ss_data st) |}.

Definition is_amazon (vendor : string) : bool := String.eqb vendor "amazon".

Definition add_stats (vendor : string) : sum_dictionary -> install_stats -> sum_dictionary :=
  if is_amazon vendor then add_remote else add_colocated.

(** The totals after the loop has visited [records] in order. *)
Definition aggregate (vendor : string) (records : list install_stats) : sum_dictionary :=
  fold_left (add_stats vendor) records sum_zero.

(** ** Rendering *)

Definition esc : string := String (ascii_of_nat 27) EmptyString.
Definition nl : string := String (ascii_of_nat 10) EmptyString.

Definition NC : string := esc ++ "[0m".
Definition green : string := esc ++ "[32m".
Definition orange : string := esc ++ "[33m".
Definition ltred : string := esc ++ "[91m".
Definition ltgreen : string := esc ++ "[92m".

(** [print(a, b, ...)]: the arguments separated by one blank, then a
    newline. *)
Definition py_print (args : list string) : string :=
  String.concat " " args ++ nl.

(** Replacement fields of a format string: [{}], [{:<w}] and [{:>w}]. *)
Inductive field : Type :=
| Plain
| AlignL (width : nat)
| AlignR (width : nat).

Definition fill (f : field) (s : string) : string :=
  match f with
  | Plain => s
  | AlignL n => s ++ spaces (n - String.length s)
  | AlignR n => spaces (n - String.length s) ++ s
  end.

(** [fmt.format(args...)] with automatic numbering; arguments beyond the
    last field are ignored. *)
Fixpoint format (fmt : list field) (args : list string) : string :=
  match fmt, args with
  | f :: fmt', a :: args' => fill f a ++ format fmt' args'
  | _, _ => EmptyString
  end.

Definition header (vendor : string) : list field :=
  if is_amazon vendor
  then [AlignL 18; AlignR 10; AlignR 13; AlignR 12; AlignR 11; AlignR 11]
  else [AlignL 18; AlignR 10; AlignR 13; AlignR 13; AlignR 12; AlignR 11;
        AlignR 13].

Definition body (vendor : string) : list field :=
  if is_amazon vendor
  then [Plain; Plain; AlignL 16; Plain; AlignR 12; AlignR 13; AlignR 12;
        AlignR 11; AlignR 11]
  else [Plain; Plain; AlignL 14; Plain; AlignR 14; AlignR 13; AlignR 13;
        AlignR 12; AlignR 11; AlignR 13].

Definition footer (vendor : string) : list field :=
  if is_amazon vendor
  then [Plain; AlignR 26; AlignR 12; AlignR 12; AlignR 11; AlignR 11]
  else [Plain; AlignR 26; AlignR 12; AlignR 13; AlignR 11; AlignR 12;
        AlignR 13].

(** Column titles of the table. *)
Definition titles (vendor : string) : list string :=
  if is_amazon vendor
  then ["Install"; "Multisite"; "Production"; "Prod DB"; "Staging"; "Stage DB"]
  else ["Install"; "Multisite"; "Production"; "Prod DB DU"; "Prod DB";
        "Staging"; "Staging DB"].

(** The numeric cells of one row, in column order. *)
Definition row_values (vendor : string) (st : install_stats) : list pynum :=
  if is_amazon vendor
  then [Production st; wp_data st; Staging st; ss_data st]
  else [Production st; wp_disk st; wp_data st; Staging st; ss_data st].

(** The cells of the totals row. *)
Definition total_values (vendor : string) (t : sum_dictionary) : list pynum :=
  if is_amazon vendor
  then [prod_du_ttl t; prod_db_ttl t; stage_du_ttl t; stage_db_ttl t]
  else [prod_du_ttl t; prod_db_du_ttl t; prod_db_ttl t; stage_du_ttl t;
        stage_db_ttl t].

Definition title_line (vendor : string) : string :=
  py_print [green; format (header vendor) (titles vendor); NC].

(** The rule under the titles. *)
Definition rule_line (vendor : string) : string :=
  if is_amazon vendor
  then py_print [green;
         format (header vendor)
           ["-------"; "---------"; "----------"; "--------"; "-------";
            "---------"; NC]]
  else py_print [green;
         format (header vendor)
           ["-------"; "---------"; "----------"; "----------"; "--------";
            "-------"; "----------"; "----------"];
         NC].

(** The rule above the totals. *)
Definition closing_line (vendor : string) : string :=
  if is_amazon vendor
  then rule_line vendor
  else py_print [green;
         format (header vendor)
           ["-------"; "---------"; "----------"; "---------"; "--------";
            "-------"; "----------"; "---------"];
         NC].

Definition row_line (vendor install : string) (st : install_stats) : string :=
  py_print [format (body vendor)
              ([orange; " "; install; NC; Multisite st]
                 ++ map fix_format (row_values vendor st))%list].

Definition totals_line (vendor : string) (t : sum_dictionary) : string :=
  py_print [green;
            format (footer vendor)
              (["Totals:"; NC] ++ map fix_format (total_values vendor t))%list].

(** The sum shown on the [Total diskusage:] line. *)
Definition combined_disk (vendor : string) (t : sum_dictionary) : pynum :=
  if is_amazon vendor
  then py_add (prod_du_ttl t) (stage_du_ttl t)
  else py_add (py_add (prod_du_ttl t) (prod_db_du_ttl t)) (stage_du_ttl t).

(** The sum shown on the [Combined DB Size:] line. *)
Definition combined_db (t : sum_dictionary) : pynum :=
  py_add (prod_db_ttl t) (stage_db_ttl t).

Definition diskusage_line (vendor : string) (t : sum_dictionary) : string :=
  py_print [ltgreen;
            (if is_amazon vendor then "Total diskusage:"
             else nl ++ " Total diskusage:");
            NC; fix_format (combined_disk vendor t)].

Definition dbsize_line (t : sum_dictionary) : string :=
  py_print [ltgreen; "Combined DB Size:"; NC; fix_format (combined_db t)].

Definition lookup (d : dict) (install : string) : result install_stats :=
  match dict_get d install with
  | Some st => Ok st
  | None => Raise KeyError
  end.

(** The [for install in install_list] loop: one printed row per install
    and the running totals. *)
Fixpoint table_loop (vendor : string) (d : dict) (install_list : list string)
    (t : sum_dictionary) : result (list string * sum_dictionary) :=
  match install_list with
  | [] => Ok ([], t)
  | install :: rest =>
      st <- lookup d install ;;
      r <- table_loop vendor d rest (add_stats vendor t st) ;;
      Ok (row_line vendor install st :: fst r, snd r)
  end.

(** ** Main body: everything printed by a run that completes, one string
    per [print] call.  [install_list] is the list given on the command
    line. *)
Definition report (w : world) (host : Z) (vendor : string)
    (install_list : list string) : result (list string) :=
  stats <- create_install_stats_dictionary w vendor install_list ;;
  pool <- get_innodb_buffer_size w ;;
  r <- table_loop vendor stats install_list sum_zero ;;
  let t := snd r in
  Ok (([py_print ["Conducting"; ltred; "diskaudit"; NC; "..."];
       py_print ["Executing calculations,"; orange;
                 "this could take a few minutes"; NC; "."];
       py_print [ltgreen; (nl ++ " Pod:")%string; NC; str_Z host];
       py_print [ltgreen; "InnoDB Buffer Pool Size:"; NC; pool; nl];
       title_line vendor;
       rule_line vendor]
      ++ fst r
      ++ [closing_line vendor;
          totals_line vendor t;
          diskusage_line vendor t;
          dbsize_line t])%list).

(** ** Vocabulary of the statements *)

(** [s] shows the quotient [n / d] to the nearest hundredth with exactly
    two decimal digits, directly followed by [unit]. *)
Definition renders_2f (s : string) (n d : Z) (unit : string) : Prop :=
  exists c : Z,
    0 <= c /\ 2 * Z.abs (100 * n - c * d) <= d /\
    is_digit (digit_char (c / 10 mod 10)) = true /\
    is_digit (digit_char (c mod 10)) = true /\
    s = str_Z (c / 100) ++ "."
          ++ String (digit_char (c / 10 mod 10))
               (String (digit_char (c mod 10)) unit).


(** The records of a list of installs, collected in order. *)
Fixpoint collect_all (w : world) (vendor : string) (install_list : list string)
    : result (list install_stats) :=
  match install_list with
  | [] => Ok []
  | install :: rest =>
      st <- collect w vendor install ;;
      sts <- collect_all w vendor rest ;;
      Ok (st :: sts)
  end.

Fixpoint row_lines (vendor : string) (install_list : list string)
    (records : list install_stats) : list string :=
  match install_list, records with
  | install :: rest, st :: sts =>
      row_line vendor install st :: row_lines vendor rest sts
  | _, _ => []
  end.

(** The printed lines of a run in terms of the collected records. *)
Definition report_lines (host : Z) (vendor pool : string)
    (install_list : list string) (records : list install_stats) : list string :=
  let t := aggregate vendor records in
  ([py_print ["Conducting"; ltred; "diskaudit"; NC; "..."];
    py_print ["Executing calculations,"; orange;
              "this could take a few minutes"; NC; "."];
    py_print [ltgreen; (nl ++ " Pod:")%string; NC; str_Z host];
    py_print [ltgreen; "InnoDB Buffer Pool Size:"; NC; pool; nl];
    title_line vendor;
    rule_line vendor]
   ++ row_lines vendor install_list records
   ++ [closing_line vendor;
       totals_line vendor t;
       diskusage_line vendor t;
       dbsize_line t])%list.

(** Every entry of the dictionary is the record of its key. *)
Definition dict_ok (w : world) (vendor : string) (d : dict) : Prop :=
  forall k st, dict_get d k = Some st -> collect w vendor k = Ok st.

(** ** Concrete worlds *)

Fixpoint cmd_eqb (a b : list string) : bool :=
  match a, b with
  | [], [] => true
  | x :: a', y :: b' => String.eqb x y && cmd_eqb a' b'
  | _, _ => false
  end.

(** The answer of the first entry for [cmd], else [default]. *)
Fixpoint answer (table : list (list string * result pytext))
    (default : result pytext) (cmd : list string) : result pytext :=
  match table with
  | [] => default
  | (c, r) :: table' => if cmd_eqb c cmd then r else answer table' default cmd
  end.

Definition mk_world (dirs : list string)
    (table : list (list string * result pytext)) (default : result pytext)
    : world :=
  {| path_exists := fun p => existsb (String.eqb p) dirs;
     check_output := answer table default |}.

Definition tab : string := String (ascii_of_nat 9) EmptyString.

(** What [du -sb path] prints for a directory of [n] bytes. *)
Definition du_prints (n : Z) (path : string) : result pytext :=
  Ok (Bytes (str_Z n ++ tab ++ path ++ nl)).

Definition prod_query_cmd (install : string) : list string :=
  ["wp"; "--path=/nas/content/live/" ++ install; "db"; "query";
   size_query 21 24 20 ("wp_" ++ install); "--skip-column-names"].

Definition multisite_cmd (install : string) : list string :=
  ["php"; "/nas/wp/www/tools/wpe.php"; "option-get"; install; "mu"].

(** Install [A]: 2,147,483,648 bytes of production, no staging
    directory, 104,857,600 bytes of production tables.  Install [B]: no
    production directory, a staging directory of 4096 bytes, no table
    data.  Every other command prints [0]. *)
Definition scenario_world : world :=
  mk_world ["/nas/content/live/A"; "/nas/content/staging/B"]
    [(du_cmd "/nas/content/live/A", du_prints 2147483648 "/nas/content/live/A");
     (du_cmd "/nas/content/staging/B", du_prints 4096 "/nas/content/staging/B");
     (prod_query_cmd "A", Ok (Bytes ("104857600" ++ nl)));
     (["wp"; "db"; "query"; "SELECT @@GLOBAL.innodb_buffer_pool_size;";
       "--skip-column-names"], Ok (Bytes ("134217728" ++ nl)))]
    (Ok (Bytes ("0" ++ nl))).

(** Install [A] holds 4096 bytes both live and in staging, install [B]
    4097 bytes in staging. *)
Definition overhead_world : world :=
  mk_world ["/nas/content/live/A"; "/nas/content/staging/A";
            "/nas/content/staging/B"]
    [(du_cmd "/nas/content/live/A", du_prints 4096 "/nas/content/live/A");
     (du_cmd "/nas/content/staging/A", du_prints 4096 "/nas/content/staging/A");
     (du_cmd "/nas/content/staging/B", du_prints 4097 "/nas/content/staging/B")]
    (Ok (Bytes ("0" ++ nl))).

(** Both directories of [A] exist but [du] cannot be started. *)
Definition no_du_world : world :=
  mk_world ["/nas/content/live/A"; "/nas/content/staging/A"]
    [(du_cmd "/nas/content/live/A", Raise IOError);
     (du_cmd "/nas/content/staging/A", Raise IOError)]
    (Ok (Bytes ("0" ++ nl))).

(** Both directories of [A] exist and [du] starts, but it cannot read
    everything below them and exits with status 1. *)
Definition du_fails_world : world :=
  mk_world ["/nas/content/live/A"; "/nas/content/staging/A"]
    [(du_cmd "/nas/content/live/A", Raise CalledProcessError);
     (du_cmd "/nas/content/staging/A", Raise CalledProcessError)]
    (Ok (Bytes ("0" ++ nl))).

(** The multisite lookup of [A] cannot be run. *)
Definition no_lookup_world : world :=
  mk_world [] [(multisite_cmd "A", Raise IOError)] (Ok (Bytes ("0" ++ nl))).

(** The production schema of [A] has no base table: the aggregate prints
    [NULL]. *)
Definition null_prod_world : world :=
  mk_world [] [(prod_query_cmd "A", Ok (Bytes ("NULL" ++ nl)))]
    (Ok (Bytes ("0" ++ nl))).

(** A store with a locally readable database directory of 5,242,880
    bytes for [A]. *)
Definition db_disk_world : world :=
  mk_world []
    [(["sudo"; "du"; "-sb"; "/nas/mysql/wp_A"],
      du_prints 5242880 "/nas/mysql/wp_A")]
    (Ok (Bytes ("0" ++ nl))).

(** ** Sums of a field *)

(** The running Python sum of one field over the records, from [0]. *)
Definition total (f : install_stats -> pynum) (records : list install_stats)
    : pynum :=
  fold_left py_add (map f records) (PyInt 0).

(** The mathematical sum of one field. *)
Definition field_sum (f : install_stats -> pynum) (records : list install_stats)
    : Z :=
  fold_right (fun st acc => py_val (f st) + acc) 0 records.

Definition any_float (f : install_stats -> pynum) (records : list install_stats)
    : bool :=
  existsb (fun st => is_float (f st)) records.

Definition mk_num (float : bool) (z : Z) : pynum :=
  if float then PyFloat z else PyInt z.

(** The field holds byte counts (no negative value) whose sum binary64
    still represents exactly. *)
Definition field_exact (f : install_stats -> pynum)
    (records : list install_stats) : Prop :=
  Forall (fun st => 0 <= py_val (f st)) records /\
  field_sum f records <= 2 ^ 53.

Definition exact_range (records : list install_stats) : Prop :=
  field_exact Production records /\ field_exact wp_disk records /\
  field_exact wp_data records /\ field_exact Staging records /\
  field_exact ss_data records.

Definition stats_of (prod : pynum) : install_stats :=
  {| Multisite := "No"; Production := prod; wp_disk := PyInt 0;
     wp_data := PyFloat 0; Staging := PyInt 0; ss_data := PyInt 0 |}.

(** Three installs: one of 2^53 bytes of production, two of one byte. *)
Definition huge_first : list install_stats :=
  [stats_of (PyFloat (2 ^ 53)); stats_of (PyFloat 1); stats_of (PyFloat 1)].

Definition huge_last : list install_stats :=
  [stats_of (PyFloat 1); stats_of (PyFloat 1); stats_of (PyFloat (2 ^ 53))].

Definition small_first : list install_stats :=
  [stats_of (PyFloat 4096); stats_of (PyInt 0); stats_of (PyFloat 1)].

Definition small_last : list install_stats :=
  [stats_of (PyInt 0); stats_of (PyFloat 1); stats_of (PyFloat 4096)].

(** The lines of a run that completed. *)
Definition printed (r : result (list string)) : list string :=
  match r with
  | Ok lines => lines
  | Raise _ => []
  end.

Definition stage_query_cmd (install : string) : list string :=
  ["wp"; "--path=/nas/content/live/" ++ install; "db"; "query";
   size_query 30 34 30 ("snapshot_" ++ install); "--skip-column-names"].

(** Install [A] has no staging schema: the aggregate over it prints
    [NULL], handed over as [bytes]. *)
Definition null_stage_world : world :=
  mk_world [] [(stage_query_cmd "A", Ok (Bytes ("NULL" ++ nl)))]
    (Ok (Bytes ("0" ++ nl))).

(** ** Proof automation *)

(** Case analysis on every integer comparison of the goal. *)
Ltac ltb_cases :=
  repeat match goal with
         | |- context [?a <? ?b] =>
             let E := fresh "E" in
             destruct (a <? b) eqn:E;
             [apply Z.ltb_lt in E | apply Z.ltb_ge in E]
         | |- context [?a <=? ?b] =>
             let E := fresh "E" in
             destruct (a <=? b) eqn:E;
             [apply Z.leb_le in E | apply Z.leb_gt in E]
         end.


(** ** Further vocabulary *)

Fixpoint all_digits (s : string) : bool :=
  match s with
  | EmptyString => true
  | String c s' => is_digit c && all_digits s'
  end.

(** The text is empty or starts with a blank. *)
Definition ends_word (r : string) : bool :=
  match r with
  | EmptyString => true
  | String c _ => is_space c
  end.

Fixpoint all_space (s : string) : bool :=
  match s with
  | EmptyString => true
  | String c s' => is_space c && all_space s'
  end.

(** Evaluates the character codes of the goal. *)
Ltac eval_ascii :=
  repeat match goal with
         | |- context [nat_of_ascii ?c] =>
             let v := eval vm_compute in (nat_of_ascii c) in
             change (nat_of_ascii c) with v
         end.


Definition pool_query_cmd : list string :=
  ["wp"; "db"; "query"; "SELECT @@GLOBAL.innodb_buffer_pool_size;";
   "--skip-column-names"].

(** [du] prints nothing but a newline for the live directory of [A]. *)
Definition blank_du_world : world :=
  mk_world ["/nas/content/live/A"; "/nas/content/staging/A"]
    [(du_cmd "/nas/content/live/A", Ok (Bytes nl));
     (du_cmd "/nas/content/staging/A", Ok (Bytes nl))]
    (Ok (Bytes ("0" ++ nl))).

Definition empty_stats : install_stats :=
  {| Multisite := ""; Production := PyInt 0; wp_disk := PyInt 0;
     wp_data := PyInt 0; Staging := PyInt 0; ss_data := PyInt 0 |}.

(** ** Host identity *)

(** [get_host] on the content of [/etc/cluster-id] (or the exception of
    opening it), then [int(...)] as the main body applies it. *)
Definition get_host (cluster_id : result string) : result pytext :=
  content <- cluster_id ;;
  first_token (Str content).

Definition host_id (cluster_id : result string) : result pynum :=
  tok <- get_host cluster_id ;;
  py_int tok.

(** The keys of a dictionary, in insertion order. *)
Definition keys (d : dict) : list string := map fst d.

(** ** Output of a run, completed or not *)

(** The two lines printed before anything is measured. *)
Definition banner : list string :=
  [py_print ["Conducting"; ltred; "diskaudit"; NC; "..."];
   py_print ["Executing calculations,"; orange;
             "this could take a few minutes"; NC; "."]].

(** The table loop with its output kept when a lookup fails: the rows
    printed so far, and the totals or the exception. *)
Fixpoint print_loop (vendor : string) (d : dict) (install_list : list string)
    (t : sum_dictionary) : list string * result sum_dictionary :=
  match install_list with
  | [] => ([], Ok t)
  | install :: rest =>
      match lookup d install with
      | Raise e => ([], Raise e)
      | Ok st =>
          let r := print_loop vendor d rest (add_stats vendor t st) in
          (row_line vendor install st :: fst r, snd r)
      end
  end.

(** The main body as a trace: everything printed, one string per
    [print] call, and the exception that ended the run, if any. *)
Definition run (w : world) (host : Z) (vendor : string)
    (install_list : list string) : list string * option exn :=
  match create_install_stats_dictionary w vendor install_list with
  | Raise e => (banner, Some e)
  | Ok stats =>
      let pod := py_print [ltgreen; (nl ++ " Pod:")%string; NC; str_Z host] in
      match get_innodb_buffer_size w with
      | Raise e => ((banner ++ [pod])%list, Some e)
      | Ok pool =>
          let head :=
            (banner
             ++ [pod;
                 py_print [ltgreen; "InnoDB Buffer Pool Size:"; NC; pool; nl];
                 title_line vendor;
                 rule_line vendor])%list in
          match print_loop vendor stats install_list sum_zero with
          | (rows, Raise e) => ((head ++ rows)%list, Some e)
          | (rows, Ok t) =>
              ((head ++ rows
                ++ [closing_line vendor;
                    totals_line vendor t;
                    diskusage_line vendor t;
                    dbsize_line t])%list, None)
          end
      end
  end.
(** * Properties *)

(** ** Unit formatter *)

Lemma is_digit_digit_char (x : Z) : is_digit (digit_char (x mod 10)) = true.
Proof.
  assert (H : 0 <= x mod 10 < 10) by (apply Z.mod_pos_bound; lia).
  assert (E : exists k, (k < 10)%nat /\ x mod 10 = Z.of_nat k).
  { exists (Z.to_nat (x mod 10)). split; lia. }
  destruct E as [k [Hk ->]]. unfold digit_char. rewrite Nat2Z.id.
  do 10 (destruct k as [|k]; [reflexivity|]). lia.
Qed.

Lemma append_assoc (a b c : string) : (a ++ b) ++ c = a ++ (b ++ c).
Proof. induction a as [|x a IH]; simpl; [reflexivity | now rewrite IH]. Qed.

Lemma fmt_2f_renders (n d : Z) (unit : string) :
  0 <= n -> 0 < d -> renders_2f (fmt_2f n d ++ unit) n d unit.
Proof.
  intros Hn Hd. unfold fmt_2f, renders_2f.
  pose proof (Z.div_mod (100 * n) d ltac:(lia)) as E.
  pose proof (Z.mod_pos_bound (100 * n) d Hd) as B.
  pose proof (Z.div_pos (100 * n) d ltac:(lia) Hd) as Q.
  set (q := 100 * n / d) in *. set (r := (100 * n) mod d) in *.
  match goal with |- context [str_Z (?x / 100)] => set (c := x) end.
  exists c. repeat split.
  - subst c. destruct (2 * r <? d); [lia|]. destruct (d <? 2 * r); [lia|].
    destruct (Z.even q); lia.
  - subst c. destruct (2 * r <? d) eqn:E1; [apply Z.ltb_lt in E1; nia|].
    apply Z.ltb_ge in E1.
    destruct (d <? 2 * r) eqn:E2; [apply Z.ltb_lt in E2; nia|].
    apply Z.ltb_ge in E2. destruct (Z.even q); nia.
  - apply is_digit_digit_char.
  - apply is_digit_digit_char.
  - rewrite !append_assoc. reflexivity.
Qed.

Lemma b64_round_exact (z : Z) : 0 <= z <= 2 ^ 53 -> b64_round z = z.
Proof.
  intros [H0 H1]. unfold b64_round.
  destruct (z <? 0) eqn:E; [apply Z.ltb_lt in E; lia|].
  unfold b64_round_pos. destruct (z <? 2 ^ 53) eqn:E2; [reflexivity|].
  apply Z.ltb_ge in E2. assert (z = 2 ^ 53) as -> by lia. reflexivity.
Qed.

Lemma b64_round_nonneg (z : Z) : 0 <= z -> 0 <= b64_round z.
Proof.
  intros H0. unfold b64_round.
  destruct (z <? 0) eqn:E; [apply Z.ltb_lt in E; lia|].
  unfold b64_round_pos. destruct (z <? 2 ^ 53); [lia|].
  assert (Hp : 0 <= 2 ^ (Z.log2 z - 52)) by (apply Z.pow_nonneg; lia).
  assert (Hq : 0 <= z / 2 ^ (Z.log2 z - 52)) by (apply Z_div_nonneg_nonneg; lia).
  set (p := 2 ^ (Z.log2 z - 52)) in *. set (q := z / p) in *.
  cbv zeta.
  destruct (z mod p <? _); [nia|]. destruct (_ <? z mod p); [nia|].
  destruct (Z.even q); nia.
Qed.

Lemma to_float_small (v : pynum) : 0 <= py_val v <= 2 ^ 53 -> to_float v = py_val v.
Proof. destruct v as [z|z]; simpl; [apply b64_round_exact | reflexivity]. Qed.

Lemma to_float_nonneg (v : pynum) : 0 <= py_val v -> 0 <= to_float v.
Proof. destruct v as [z|z]; simpl; [apply b64_round_nonneg | trivial]. Qed.

(** C1, as the claim words it, fails: the float 1023.0 is a non-negative
    number below 1024 and is printed [1023.0B], not as the raw integer. *)
Lemma fix_format_float_not_raw_integer :
  fix_format (PyFloat 1023) = "1023.0B" /\
  ~ (forall v : pynum,
       0 <= py_val v < 1024 -> fix_format v = str_Z (py_val v) ++ "B").
Proof.
  split; [reflexivity|].
  intros H. specialize (H (PyFloat 1023) ltac:(simpl; lia)). discriminate H.
Qed.

(** C1 (amended): for every non-negative value the unit is chosen by the
    thresholds 1024, 1024^2, 1024^3, 1024^4, a threshold itself falling
    in the next unit; from 1024 on the value divided by the unit's scale
    is shown to the nearest hundredth with exactly two decimal digits
    and the unit letter right after (in the [T] range an [int] beyond
    2^53 is first rounded to a float); below 1024 an [int] is printed raw
    with suffix [B] while a [float] keeps its [.0]; the four sample
    values come out as [1023B], [1.00K], [1.00M], [1.00G]. *)
Theorem fix_format_units (v : pynum) :
  0 <= py_val v ->
  (py_val v < 1024 ->
     fix_format v = match v with
                    | PyInt z => str_Z z ++ "B"
                    | PyFloat z => str_Z z ++ ".0" ++ "B"
                    end) /\
  (1024 <= py_val v < 1024 ^ 2 ->
     renders_2f (fix_format v) (py_val v) 1024 "K") /\
  (1024 ^ 2 <= py_val v < 1024 ^ 3 ->
     renders_2f (fix_format v) (py_val v) (1024 ^ 2) "M") /\
  (1024 ^ 3 <= py_val v < 1024 ^ 4 ->
     renders_2f (fix_format v) (py_val v) (1024 ^ 3) "G") /\
  (1024 ^ 4 <= py_val v ->
     renders_2f (fix_format v) (to_float v) (1024 ^ 4) "T") /\
  fix_format (PyInt 1023) = "1023B" /\
  fix_format (PyInt 1024) = "1.00K" /\
  fix_format (PyInt 1048576) = "1.00M" /\
  fix_format (PyInt 1073741824) = "1.00G".
Proof.
  intros H0.
  assert (P : forall d u, 0 < d ->
            renders_2f (scaled_2f v d ++ u) (to_float v) d u).
  { intros d u Hd. apply fmt_2f_renders; [apply to_float_nonneg|]; assumption. }
  change (1024 ^ 2) with 1048576. change (1024 ^ 3) with 1073741824.
  change (1024 ^ 4) with 1099511627776.
  repeat split; try reflexivity; intros Hr; unfold fix_format; cbv zeta.
  - destruct (py_val v <? 1024) eqn:E; [|apply Z.ltb_ge in E; lia].
    destruct v; simpl; [reflexivity | apply append_assoc].
  - pose proof (P 1024 "K" ltac:(lia)) as Q.
    rewrite to_float_small in Q by lia.
    ltb_cases; try lia; simpl andb; cbv iota. exact Q.
  - pose proof (P (1024 * 1024) "M" ltac:(lia)) as Q.
    rewrite to_float_small in Q by lia.
    ltb_cases; try lia; simpl andb; cbv iota. exact Q.
  - pose proof (P (1024 * 1024 * 1024) "G" ltac:(lia)) as Q.
    rewrite to_float_small in Q by lia.
    ltb_cases; try lia; simpl andb; cbv iota. exact Q.
  - ltb_cases; try lia; simpl andb; cbv iota.
    apply (P (1024 * 1024 * 1024 * 1024)). lia.
Qed.

Lemma fix_format_units_witness :
  0 <= py_val (PyFloat 1536) /\
  renders_2f (fix_format (PyFloat 1536)) 1536 1024 "K" /\
  fix_format (PyFloat 1536) = "1.50K".
Proof.
  split; [simpl; lia|]. split; [|reflexivity].
  apply (fix_format_units (PyFloat 1536)); simpl; lia.
Defined.

(** ** The dictionary of records and the table loop *)

Section Run.
Variable w : world.
Variable vendor : string.

Lemma dict_get_set (d : dict) (k k' : string) (st : install_stats) :
  dict_get (dict_set d k st) k' =
  if String.eqb k k' then Some st else dict_get d k'.
Proof.
  induction d as [|[k0 st0] d IH]; simpl.
  - reflexivity.
  - destruct (String.eqb k0 k) eqn:E0; simpl.
    + apply String.eqb_eq in E0. subst k0.
      destruct (String.eqb k k'); reflexivity.
    + rewrite IH. destruct (String.eqb k0 k') eqn:E1; [|reflexivity].
      apply String.eqb_eq in E1. subst k0.
      destruct (String.eqb k k') eqn:E2; [|reflexivity].
      apply String.eqb_eq in E2. subst k'.
      rewrite String.eqb_refl in E0. discriminate.
Qed.

Lemma dict_ok_set (d : dict) (k : string) (st : install_stats) :
  dict_ok w vendor d -> collect w vendor k = Ok st ->
  dict_ok w vendor (dict_set d k st).
Proof.
  intros Hd Hc k' st' H. rewrite dict_get_set in H.
  destruct (String.eqb k k') eqn:E.
  - apply String.eqb_eq in E. subst k'. now injection H as <-.
  - now apply Hd.
Qed.

Lemma fill_stats_raise (l : list string) (d : dict) (e : exn) :
  collect_all w vendor l = Raise e -> fill_stats w vendor l d = Raise e.
Proof.
  revert d. induction l as [|i l IH]; intros d H; simpl in *.
  - discriminate.
  - destruct (collect w vendor i) as [st|e']; simpl in *;
      [|now injection H as ->].
    destruct (collect_all w vendor l) as [sts|e'] eqn:E; simpl in *.
    + discriminate.
    + apply IH. exact H.
Qed.

Lemma fill_stats_ok (l : list string) (d : dict) (recs : list install_stats) :
  dict_ok w vendor d -> collect_all w vendor l = Ok recs ->
  exists d', fill_stats w vendor l d = Ok d' /\ dict_ok w vendor d' /\
             (forall k, dict_get d k <> None -> dict_get d' k <> None) /\
             (forall k, In k l -> dict_get d' k <> None).
Proof.
  revert d recs. induction l as [|i l IH]; intros d recs Hd H; simpl in *.
  - exists d. repeat split; auto.
  - destruct (collect w vendor i) as [st|e'] eqn:Ec; simpl in *; [|discriminate].
    destruct (collect_all w vendor l) as [sts|e'] eqn:E; simpl in *;
      [|discriminate].
    destruct (IH (dict_set d i st) sts (dict_ok_set d i st Hd Ec) eq_refl)
      as [d' [Hf [Hok [Hkeep Hin]]]].
    exists d'. repeat split; auto.
    + intros k Hk. apply Hkeep. rewrite dict_get_set.
      destruct (String.eqb i k); [discriminate | exact Hk].
    + intros k [->|Hk]; [|now apply Hin].
      apply Hkeep. rewrite dict_get_set, String.eqb_refl. discriminate.
Qed.

Lemma table_loop_ok (d : dict) (l : list string) (recs : list install_stats)
    (t : sum_dictionary) :
  dict_ok w vendor d -> (forall k, In k l -> dict_get d k <> None) ->
  collect_all w vendor l = Ok recs ->
  table_loop vendor d l t =
  Ok (row_lines vendor l recs, fold_left (add_stats vendor) recs t).
Proof.
  intros Hd. revert recs t.
  induction l as [|i l IH]; intros recs t Hin H; simpl in *.
  - injection H as <-. reflexivity.
  - unfold lookup. destruct (dict_get d i) as [st|] eqn:Eg;
      [|exfalso; apply (Hin i); auto].
    rewrite (Hd _ _ Eg) in H. simpl in *.
    destruct (collect_all w vendor l) as [sts|e'] eqn:E; simpl in *;
      [|discriminate].
    injection H as <-.
    rewrite (IH sts (add_stats vendor t st)); auto.
Qed.

(** A run prints exactly the lines computed from the records collected
    in order, and ends with the first exception a collector raises. *)
Lemma report_eq (host : Z) (l : list string) :
  report w host vendor l =
  (recs <- collect_all w vendor l ;;
   pool <- get_innodb_buffer_size w ;;
   Ok (report_lines host vendor pool l recs)).
Proof.
  unfold report, create_install_stats_dictionary.
  destruct (collect_all w vendor l) as [recs|e] eqn:E; simpl.
  - destruct (fill_stats_ok l [] recs) as [d' [Hf [Hok [_ Hin]]]]; auto.
    { intros k st H. discriminate H. }
    rewrite Hf. simpl.
    destruct (get_innodb_buffer_size w) as [pool|e]; simpl; [|reflexivity].
    rewrite (table_loop_ok d' l recs sum_zero Hok Hin E). reflexivity.
  - rewrite (fill_stats_raise l [] e E). reflexivity.
Qed.
End Run.

(** ** Collectors *)

(** C8, as the claim words it, fails: when the lookup cannot be run the
    status is not [No]; the exception leaves [check_multisite]. *)
Lemma check_multisite_lookup_unavailable :
  check_output no_lookup_world (multisite_cmd "A") = Raise IOError /\
  check_multisite no_lookup_world "A" = Raise IOError /\
  check_multisite no_lookup_world "A" <> Ok "No".
Proof. repeat split; try reflexivity. discriminate. Qed.

(** C8 (amended): the status is [No] whenever the lookup keyed by the
    install answers anything but the sentinel 1, and it is [Yes] only
    if the lookup answered 1; when the lookup itself fails no default
    is applied: its exception is passed on. *)
Theorem check_multisite_spec (w : world) (install : string) :
  (forall mu, check_output w (multisite_cmd install) = Ok mu ->
              text_of mu <> "1" ->
              check_multisite w install = Ok "No") /\
  (check_multisite w install = Ok "Yes" ->
   exists mu, check_output w (multisite_cmd install) = Ok mu /\
              text_of mu = "1") /\
  (forall mu, check_output w (multisite_cmd install) = Ok mu ->
              check_multisite w install = Ok "Yes" \/
              check_multisite w install = Ok "No") /\
  (forall e, check_output w (multisite_cmd install) = Raise e ->
             check_multisite w install = Raise e).
Proof.
  assert (T : forall mu, py_eq mu (Str "1") = true -> text_of mu = "1").
  { intros [s|s] H; simpl in H; [discriminate H|].
    now apply String.eqb_eq in H. }
  unfold check_multisite, multisite_cmd.
  destruct (check_output w _) as [mu|e]; cbn [bind].
  - split; [|split; [|split]].
    + intros mu' H1 H2. injection H1 as <-.
      destruct (py_eq mu (Str "1")) eqn:E; [|reflexivity].
      elim H2. now apply T.
    + intros H. exists mu. split; [reflexivity|].
      destruct (py_eq mu (Str "1")) eqn:E; [now apply T | discriminate H].
    + intros mu' _. destruct (py_eq mu (Str "1")); auto.
    + intros e H. discriminate H.
  - split; [|split; [|split]].
    + intros mu' H1. discriminate H1.
    + intros H. discriminate H.
    + intros mu' H1. discriminate H1.
    + intros e' H. now injection H as ->.
Qed.

Lemma check_multisite_spec_witness :
  check_multisite scenario_world "A" = Ok "No" /\
  check_multisite no_lookup_world "A" = Raise IOError.
Proof.
  split.
  - apply (proj1 (check_multisite_spec scenario_world "A")
             (Bytes ("0" ++ nl))); [reflexivity | discriminate].
  - apply (proj2 (proj2 (proj2 (check_multisite_spec no_lookup_world "A")))).
    reflexivity.
Defined.

(** Under python3 the output is [bytes], which never equals ['1']. *)
Lemma check_multisite_bytes (w : world) (install : string) :
  py3_world w -> check_multisite w install <> Ok "Yes".
Proof.
  intros Hw H. unfold check_multisite in H.
  destruct (check_output w _) as [mu|e] eqn:E; simpl in H; [|discriminate H].
  destruct (Hw _ _ E) as [s ->]. discriminate H.
Qed.

(** What the two collectors do absorb: a production or staging
    directory that does not exist gives the usage 0 without an error,
    and an [IOError] raised while the size is measured (a [du] that
    cannot be started) is turned into 0 as well. *)
Theorem missing_path_or_io_failure_is_zero (w : world) (install : string) :
  (path_exists w ("/nas/content/live/" ++ install) = false ->
   get_prod_du w install = Ok (PyInt 0)) /\
  (path_exists w ("/nas/content/staging/" ++ install) = false ->
   get_stage_du w install = Ok (PyInt 0)) /\
  (check_output w (du_cmd ("/nas/content/live/" ++ install)) = Raise IOError ->
   get_prod_du w install = Ok (PyInt 0)) /\
  (check_output w (du_cmd ("/nas/content/staging/" ++ install)) = Raise IOError ->
   get_stage_du w install = Ok (PyInt 0)).
Proof.
  unfold get_prod_du, get_stage_du, measure. repeat split; intros H.
  - now rewrite H.
  - now rewrite H.
  - destruct (path_exists w _); [|reflexivity]. now rewrite H.
  - destruct (path_exists w _); [|reflexivity]. now rewrite H.
Qed.

Lemma missing_path_or_io_failure_is_zero_witness :
  get_prod_du scenario_world "B" = Ok (PyInt 0) /\
  get_stage_du scenario_world "A" = Ok (PyInt 0) /\
  get_prod_du no_du_world "A" = Ok (PyInt 0) /\
  get_stage_du no_du_world "A" = Ok (PyInt 0).
Proof.
  split; [|split; [|split]].
  - apply (proj1 (missing_path_or_io_failure_is_zero scenario_world "B")).
    reflexivity.
  - apply (proj1 (proj2 (missing_path_or_io_failure_is_zero scenario_world "A"))).
    reflexivity.
  - apply (proj1 (proj2 (proj2
             (missing_path_or_io_failure_is_zero no_du_world "A")))).
    reflexivity.
  - apply (proj2 (proj2 (proj2
             (missing_path_or_io_failure_is_zero no_du_world "A")))).
    reflexivity.
Defined.

(** Only [IOError] is handled: a [du] that exits with an error status
    makes [check_output] raise [CalledProcessError], which is passed on. *)
Lemma get_prod_du_du_fails (w : world) (install : string) :
  path_exists w ("/nas/content/live/" ++ install) = true ->
  check_output w (du_cmd ("/nas/content/live/" ++ install))
    = Raise CalledProcessError ->
  get_prod_du w install = Raise CalledProcessError.
Proof. intros H1 H2. unfold get_prod_du, measure. now rewrite H1, H2. Qed.

(** C5 fails on the code: a measurement that fails while reading the
    directory makes [du] exit with an error status, which
    [check_output] reports as [CalledProcessError]; the handler names
    [IOError] only, so neither collector turns it into 0 and the run
    ends with that exception. *)
Theorem du_failure_propagates :
  path_exists du_fails_world "/nas/content/live/A" = true /\
  check_output du_fails_world (du_cmd "/nas/content/live/A")
    = Raise CalledProcessError /\
  get_prod_du du_fails_world "A" = Raise CalledProcessError /\
  get_stage_du du_fails_world "A" = Raise CalledProcessError /\
  report du_fails_world 1 "amazon" ["A"] = Raise CalledProcessError.
Proof. repeat split; vm_compute; reflexivity. Qed.

(** C4: a staging measurement of exactly 4096 bytes is stored as 0 and
    every other measured value (4097, say) is stored as measured; the
    production measurement is never normalised, 4096 included. *)
Theorem staging_normalization (w : world) (install : string) (v : pynum) :
  (path_exists w ("/nas/content/staging/" ++ install) = true ->
   measure w (du_cmd ("/nas/content/staging/" ++ install)) = Ok v ->
   (py_val v = 4096 -> get_stage_du w install = Ok (PyInt 0)) /\
   (py_val v <> 4096 -> get_stage_du w install = Ok v)) /\
  (path_exists w ("/nas/content/live/" ++ install) = true ->
   measure w (du_cmd ("/nas/content/live/" ++ install)) = Ok v ->
   get_prod_du w install = Ok v).
Proof.
  unfold get_stage_du, get_prod_du. split; intros Hp Hm; rewrite Hp, Hm; simpl.
  - split; intros Hv.
    + rewrite Hv. reflexivity.
    + apply Z.eqb_neq in Hv. rewrite Hv. reflexivity.
  - reflexivity.
Qed.

Lemma staging_normalization_witness :
  get_stage_du overhead_world "A" = Ok (PyInt 0) /\
  get_stage_du overhead_world "B" = Ok (PyFloat 4097) /\
  get_prod_du overhead_world "A" = Ok (PyFloat 4096).
Proof.
  split; [|split].
  - apply (proj1 (staging_normalization overhead_world "A" (PyFloat 4096)));
      reflexivity.
  - apply (proj1 (staging_normalization overhead_world "B" (PyFloat 4097)));
      try reflexivity.
    simpl. lia.
  - apply (proj2 (staging_normalization overhead_world "A" (PyFloat 4096)));
      reflexivity.
Defined.

(** C6 fails on the code: when the aggregate over the production schema
    prints [NULL], [get_prod_db_data] hands it to [float], which raises
    [ValueError], and the whole run ends with that exception. *)
Theorem null_production_aggregate_raises :
  run_cli_query null_prod_world "A" (size_query 21 24 20 "wp_A")
    = Ok (Bytes "NULL") /\
  get_prod_db_data null_prod_world "A" = Raise ValueError /\
  report null_prod_world 1 "amazon" ["A"] = Raise ValueError /\
  run_cli_query null_stage_world "A" (size_query 30 34 30 "snapshot_A")
    = Ok (Bytes "NULL") /\
  get_stage_db_data null_stage_world "A" = Raise ValueError /\
  report null_stage_world 1 "amazon" ["A"] = Raise ValueError.
Proof. repeat split; vm_compute; reflexivity. Qed.

(** The staging collector does test for [NULL]: a [str] answer gives 0,
    while the [bytes] that python3 hands over never equal ['NULL'] and
    end in [ValueError] too. *)
Lemma get_stage_db_data_null (w : world) (install : string) :
  (run_cli_query w install (size_query 30 34 30 ("snapshot_" ++ install))
     = Ok (Str "NULL") -> get_stage_db_data w install = Ok (PyInt 0)) /\
  (run_cli_query w install (size_query 30 34 30 ("snapshot_" ++ install))
     = Ok (Bytes "NULL") -> get_stage_db_data w install = Raise ValueError).
Proof.
  unfold get_stage_db_data. split; intros H; rewrite H; reflexivity.
Qed.


(** ** Aggregation *)

Lemma fold_add_remote (l : list install_stats) (t : sum_dictionary) :
  fold_left add_remote l t =
  {| prod_du_ttl := fold_left py_add (map Production l) (prod_du_ttl t);
     prod_db_du_ttl := prod_db_du_ttl t;
     prod_db_ttl := fold_left py_add (map wp_data l) (prod_db_ttl t);
     stage_du_ttl := fold_left py_add (map Staging l) (stage_du_ttl t);
     stage_db_ttl := fold_left py_add (map ss_data l) (stage_db_ttl t) |}.
Proof.
  revert t. induction l as [|st l IH]; intros t; simpl.
  - destruct t; reflexivity.
  - rewrite IH. reflexivity.
Qed.

Lemma fold_add_colocated (l : list install_stats) (t : sum_dictionary) :
  fold_left add_colocated l t =
  {| prod_du_ttl := fold_left py_add (map Production l) (prod_du_ttl t);
     prod_db_du_ttl := fold_left py_add (map wp_disk l) (prod_db_du_ttl t);
     prod_db_ttl := fold_left py_add (map wp_data l) (prod_db_ttl t);
     stage_du_ttl := fold_left py_add (map Staging l) (stage_du_ttl t);
     stage_db_ttl := fold_left py_add (map ss_data l) (stage_db_ttl t) |}.
Proof.
  revert t. induction l as [|st l IH]; intros t; simpl.
  - destruct t; reflexivity.
  - rewrite IH. reflexivity.
Qed.

(** The totals are the per-field running sums; the [amazon] loop leaves
    the database disk total at its initial 0. *)
Lemma aggregate_totals (vendor : string) (l : list install_stats) :
  aggregate vendor l =
  {| prod_du_ttl := total Production l;
     prod_db_du_ttl := if is_amazon vendor then PyInt 0 else total wp_disk l;
     prod_db_ttl := total wp_data l;
     stage_du_ttl := total Staging l;
     stage_db_ttl := total ss_data l |}.
Proof.
  unfold aggregate, add_stats, total. destruct (is_amazon vendor).
  - apply fold_add_remote.
  - apply fold_add_colocated.
Qed.

Lemma py_add_exact (a b : pynum) :
  0 <= py_val a -> 0 <= py_val b -> py_val a + py_val b <= 2 ^ 53 ->
  py_add a b = mk_num (is_float a || is_float b) (py_val a + py_val b).
Proof.
  intros Ha Hb Hs.
  assert (Ea : to_float a = py_val a) by (apply to_float_small; lia).
  assert (Eb : to_float b = py_val b) by (apply to_float_small; lia).
  destruct a as [x|x], b as [y|y]; simpl in *; try reflexivity;
    rewrite ?Ea, ?Eb, b64_round_exact by lia; reflexivity.
Qed.

Lemma mk_num_val (b : bool) (z : Z) : py_val (mk_num b z) = z.
Proof. destruct b; reflexivity. Qed.

Lemma mk_num_float (b : bool) (z : Z) : is_float (mk_num b z) = b.
Proof. destruct b; reflexivity. Qed.

Lemma fold_py_add_exact (f : install_stats -> pynum) (l : list install_stats) :
  forall acc : pynum,
    0 <= py_val acc ->
    Forall (fun st => 0 <= py_val (f st)) l ->
    py_val acc + field_sum f l <= 2 ^ 53 ->
    fold_left py_add (map f l) acc =
    mk_num (is_float acc || any_float f l) (py_val acc + field_sum f l).
Proof.
  induction l as [|st l IH]; intros acc Ha Hl Hs; simpl in *.
  - rewrite orb_false_r, Z.add_0_r. destruct acc; reflexivity.
  - inversion Hl as [|? ? Hst Hl']; subst.
    assert (Hn : 0 <= field_sum f l).
    { clear -Hl'. induction Hl'; simpl; lia. }
    rewrite py_add_exact by lia.
    rewrite IH; rewrite ?mk_num_val, ?mk_num_float; try lia; auto.
    rewrite orb_assoc, Z.add_assoc. reflexivity.
Qed.

Lemma total_exact (f : install_stats -> pynum) (l : list install_stats) :
  field_exact f l -> total f l = mk_num (any_float f l) (field_sum f l).
Proof.
  intros [Hl Hs]. unfold total.
  rewrite fold_py_add_exact; simpl; auto; lia.
Qed.

Lemma field_sum_perm (f : install_stats -> pynum) (l l' : list install_stats) :
  Permutation l l' -> field_sum f l = field_sum f l'.
Proof. induction 1; simpl; lia. Qed.

Lemma any_float_perm (f : install_stats -> pynum) (l l' : list install_stats) :
  Permutation l l' -> any_float f l = any_float f l'.
Proof.
  induction 1; simpl; try congruence.
  destruct (is_float (f x)), (is_float (f y)); reflexivity.
Qed.

Lemma field_exact_perm (f : install_stats -> pynum) (l l' : list install_stats) :
  Permutation l l' -> field_exact f l -> field_exact f l'.
Proof.
  intros P [Hl Hs]. split.
  - eapply Permutation_Forall; eauto.
  - now rewrite <- (field_sum_perm f l l' P).
Qed.

Lemma total_perm (f : install_stats -> pynum) (l l' : list install_stats) :
  Permutation l l' -> field_exact f l -> total f l = total f l'.
Proof.
  intros P H. rewrite (total_exact f l H).
  rewrite (total_exact f l' (field_exact_perm f l l' P H)).
  now rewrite (field_sum_perm f l l' P), (any_float_perm f l l' P).
Qed.

(** C3, as the claim words it, fails: float addition rounds, so the
    production total of three installs of 2^53, 1 and 1 bytes depends on
    the order in which they are visited. *)
Lemma aggregate_order_matters :
  Permutation huge_first huge_last /\
  prod_du_ttl (aggregate "amazon" huge_first) = PyFloat (2 ^ 53) /\
  prod_du_ttl (aggregate "amazon" huge_last) = PyFloat (2 ^ 53 + 2) /\
  aggregate "amazon" huge_first <> aggregate "amazon" huge_last.
Proof.
  assert (E1 : prod_du_ttl (aggregate "amazon" huge_first) = PyFloat (2 ^ 53))
    by (vm_compute; reflexivity).
  assert (E2 : prod_du_ttl (aggregate "amazon" huge_last) = PyFloat (2 ^ 53 + 2))
    by (vm_compute; reflexivity).
  split; [|split; [exact E1 | split; [exact E2 |]]].
  - unfold huge_first, huge_last.
    apply (Permutation_cons_app [stats_of (PyFloat 1); stats_of (PyFloat 1)] []).
    apply Permutation_refl.
  - intros H. rewrite H in E1. rewrite E1 in E2. injection E2 as E3.
    vm_compute in E3. discriminate E3.
Qed.

(** C3 (amended): while every field holds non-negative byte counts whose
    sum stays within 2^53, each total is the strict sum of its field over
    all records, and the totals of a sequence of records and of any
    permutation of it are equal. *)
Theorem aggregate_order_independent (vendor : string)
    (records permuted : list install_stats) :
  Permutation records permuted ->
  exact_range records ->
  aggregate vendor records = aggregate vendor permuted /\
  py_val (prod_du_ttl (aggregate vendor records)) = field_sum Production records /\
  py_val (prod_db_du_ttl (aggregate vendor records))
    = (if is_amazon vendor then 0 else field_sum wp_disk records) /\
  py_val (prod_db_ttl (aggregate vendor records)) = field_sum wp_data records /\
  py_val (stage_du_ttl (aggregate vendor records)) = field_sum Staging records /\
  py_val (stage_db_ttl (aggregate vendor records)) = field_sum ss_data records.
Proof.
  intros P (H1 & H2 & H3 & H4 & H5). split.
  - rewrite !aggregate_totals.
    rewrite (total_perm Production _ _ P H1), (total_perm wp_disk _ _ P H2),
      (total_perm wp_data _ _ P H3), (total_perm Staging _ _ P H4),
      (total_perm ss_data _ _ P H5).
    reflexivity.
  - rewrite aggregate_totals. simpl.
    rewrite !total_exact by assumption. rewrite !mk_num_val.
    repeat split. destruct (is_amazon vendor); [reflexivity | apply mk_num_val].
Qed.

Lemma aggregate_order_independent_witness :
  Permutation small_first small_last /\
  exact_range small_first /\
  aggregate "google" small_first = aggregate "google" small_last /\
  py_val (prod_du_ttl (aggregate "google" small_first)) = 4097.
Proof.
  assert (P : Permutation small_first small_last).
  { unfold small_first, small_last.
    apply (Permutation_cons_app [stats_of (PyInt 0); stats_of (PyFloat 1)] []).
    apply Permutation_refl. }
  assert (R : exact_range small_first).
  { unfold exact_range, field_exact, small_first.
    repeat split; try (repeat constructor; simpl; lia); simpl; lia. }
  split; [exact P|]. split; [exact R|]. split.
  - apply (proj1 (aggregate_order_independent "google" _ _ P R)).
  - apply (proj1 (proj2 (aggregate_order_independent "google" _ _ P R))).
Defined.

(** ** The summary lines *)

Lemma report_ok_inv (w : world) (host : Z) (vendor : string)
    (l : list string) (lines : list string) :
  report w host vendor l = Ok lines ->
  exists recs pool,
    collect_all w vendor l = Ok recs /\
    get_innodb_buffer_size w = Ok pool /\
    lines = report_lines host vendor pool l recs.
Proof.
  rewrite report_eq. intros H.
  destruct (collect_all w vendor l) as [recs|e]; simpl in H; [|discriminate].
  destruct (get_innodb_buffer_size w) as [pool|e]; simpl in H; [|discriminate].
  injection H as <-. exists recs, pool. auto.
Qed.

Lemma report_lines_end (host : Z) (vendor pool : string) (l : list string)
    (recs : list install_stats) :
  exists front,
    report_lines host vendor pool l recs =
    (front ++ [totals_line vendor (aggregate vendor recs);
               diskusage_line vendor (aggregate vendor recs);
               dbsize_line (aggregate vendor recs)])%list.
Proof.
  unfold report_lines. cbv zeta.
  match goal with
  | |- exists front, (?H ++ ?R ++ _)%list = _ =>
      exists (H ++ R ++ [closing_line vendor])%list;
      generalize H; intros h
  end.
  rewrite <- app_assoc. f_equal. rewrite <- app_assoc. reflexivity.
Qed.

(** C7: in every report the [Total diskusage:] line shows the production
    total plus the staging total, the production database disk total
    being added exactly in the layout that has its column (any vendor
    but [amazon]), and the [Combined DB Size:] line shows the production
    plus the staging database data totals. *)
Theorem summary_lines (w : world) (host : Z) (vendor : string)
    (l : list string) (lines : list string) :
  report w host vendor l = Ok lines ->
  exists recs front,
    collect_all w vendor l = Ok recs /\
    let t := aggregate vendor recs in
    lines = (front ++ [totals_line vendor t;
                       py_print [ltgreen;
                                 (if is_amazon vendor then "Total diskusage:"
                                  else (nl ++ " Total diskusage:")%string);
                                 NC; fix_format (combined_disk vendor t)];
                       py_print [ltgreen; "Combined DB Size:"; NC;
                                 fix_format (combined_db t)]])%list /\
    combined_disk vendor t =
      (if is_amazon vendor
       then py_add (total Production recs) (total Staging recs)
       else py_add (py_add (total Production recs) (total wp_disk recs))
                   (total Staging recs)) /\
    combined_db t = py_add (total wp_data recs) (total ss_data recs) /\
    (exact_range recs ->
     field_sum Production recs + field_sum wp_disk recs
       + field_sum Staging recs <= 2 ^ 53 ->
     field_sum wp_data recs + field_sum ss_data recs <= 2 ^ 53 ->
     py_val (combined_disk vendor t) =
       field_sum Production recs
       + (if is_amazon vendor then 0 else field_sum wp_disk recs)
       + field_sum Staging recs /\
     py_val (combined_db t) = field_sum wp_data recs + field_sum ss_data recs).
Proof.
  intros H. destruct (report_ok_inv _ _ _ _ _ H) as (recs & pool & Hc & _ & ->).
  destruct (report_lines_end host vendor pool l recs) as [front Hf].
  exists recs, front. split; [exact Hc|]. cbv zeta.
  split; [exact Hf|].
  assert (Ed : combined_disk vendor (aggregate vendor recs) =
               if is_amazon vendor
               then py_add (total Production recs) (total Staging recs)
               else py_add (py_add (total Production recs) (total wp_disk recs))
                      (total Staging recs)).
  { unfold combined_disk. rewrite aggregate_totals. simpl.
    destruct (is_amazon vendor); reflexivity. }
  assert (Eb : combined_db (aggregate vendor recs) =
               py_add (total wp_data recs) (total ss_data recs)).
  { unfold combined_db. rewrite aggregate_totals. reflexivity. }
  split; [exact Ed|]. split; [exact Eb|].
  intros (H1 & H2 & H3 & H4 & H5) Hs Hb.
  assert (N : forall f, field_exact f recs -> 0 <= field_sum f recs).
  { intros f [Hl _]. clear -Hl. induction Hl; simpl; lia. }
  pose proof (N _ H1). pose proof (N _ H2). pose proof (N _ H3).
  pose proof (N _ H4). pose proof (N _ H5).
  rewrite Ed, Eb. rewrite !total_exact by assumption.
  split.
  - destruct (is_amazon vendor);
      repeat (rewrite py_add_exact; rewrite ?mk_num_val; try lia);
      rewrite ?mk_num_val; lia.
  - rewrite py_add_exact; rewrite ?mk_num_val; try lia.
Qed.

Lemma summary_lines_witness :
  report scenario_world 7 "amazon" ["A"; "B"]
    = Ok (printed (report scenario_world 7 "amazon" ["A"; "B"])) /\
  exists recs,
    collect_all scenario_world "amazon" ["A"; "B"] = Ok recs /\
    combined_disk "amazon" (aggregate "amazon" recs)
      = py_add (total Production recs) (total Staging recs) /\
    fix_format (combined_disk "amazon" (aggregate "amazon" recs)) = "2.00G" /\
    fix_format (combined_db (aggregate "amazon" recs)) = "100.00M".
Proof.
  assert (R : report scenario_world 7 "amazon" ["A"; "B"]
              = Ok (printed (report scenario_world 7 "amazon" ["A"; "B"])))
    by (vm_compute; reflexivity).
  split; [exact R|].
  destruct (summary_lines scenario_world 7 "amazon" ["A"; "B"] _ R)
    as (recs & front & Hc & _ & Hd & _ & _).
  exists recs. split; [exact Hc|]. split; [exact Hd|].
  vm_compute in Hc. injection Hc as <-. split; vm_compute; reflexivity.
Defined.

(** ** End to end *)

Lemma collect_inv (w : world) (vendor install : string) (st : install_stats) :
  collect w vendor install = Ok st ->
  get_prod_du w install = Ok (Production st) /\
  get_prod_db_du w vendor install = Ok (wp_disk st) /\
  get_prod_db_data w install = Ok (wp_data st) /\
  get_stage_du w install = Ok (Staging st) /\
  get_stage_db_data w install = Ok (ss_data st).
Proof.
  unfold collect. intros H.
  destruct (check_multisite w install); simpl in H; [|discriminate].
  destruct (get_prod_du w install); simpl in H; [|discriminate].
  destruct (get_prod_db_du w vendor install); simpl in H; [|discriminate].
  destruct (get_prod_db_data w install); simpl in H; [|discriminate].
  destruct (get_stage_du w install); simpl in H; [|discriminate].
  destruct (get_stage_db_data w install); simpl in H; [|discriminate].
  injection H as <-. simpl. auto.
Qed.

Lemma collect_all_two (w : world) (vendor a b : string)
    (recs : list install_stats) :
  collect_all w vendor [a; b] = Ok recs ->
  exists sa sb, recs = [sa; sb] /\
                collect w vendor a = Ok sa /\ collect w vendor b = Ok sb.
Proof.
  simpl. intros H.
  destruct (collect w vendor a) as [sa|]; simpl in H; [|discriminate].
  destruct (collect w vendor b) as [sb|]; simpl in H; [|discriminate].
  injection H as <-. exists sa, sb. auto.
Qed.

(** C9: on the [amazon] variant with install [A] (production of
    2,147,483,648 bytes, no staging directory, 104,857,600 bytes of
    production tables) and install [B] (no production directory, a
    staging directory measured at 4096 bytes, no production table data),
    a completed report totals production at 2,147,483,648, shown [2.00G],
    staging at 0, shown [0B], and database data at 104,857,600, shown
    [100.00M]. *)
Theorem end_to_end_totals (w : world) (host : Z) (lines : list string) :
  path_exists w "/nas/content/live/A" = true ->
  measure w (du_cmd "/nas/content/live/A") = Ok (PyFloat 2147483648) ->
  path_exists w "/nas/content/staging/A" = false ->
  get_prod_db_data w "A" = Ok (PyFloat 104857600) ->
  path_exists w "/nas/content/live/B" = false ->
  path_exists w "/nas/content/staging/B" = true ->
  measure w (du_cmd "/nas/content/staging/B") = Ok (PyFloat 4096) ->
  get_prod_db_data w "B" = Ok (PyFloat 0) ->
  report w host "amazon" ["A"; "B"] = Ok lines ->
  exists recs,
    collect_all w "amazon" ["A"; "B"] = Ok recs /\
    let t := aggregate "amazon" recs in
    In (totals_line "amazon" t) lines /\
    prod_du_ttl t = PyFloat 2147483648 /\
    fix_format (prod_du_ttl t) = "2.00G" /\
    stage_du_ttl t = PyInt 0 /\
    fix_format (stage_du_ttl t) = "0B" /\
    prod_db_ttl t = PyFloat 104857600 /\
    fix_format (prod_db_ttl t) = "100.00M".
Proof.
  intros A1 A2 A3 A4 B1 B2 B3 B4 H.
  destruct (report_ok_inv _ _ _ _ _ H) as (recs & pool & Hc & _ & ->).
  exists recs. split; [exact Hc|]. cbv zeta. split.
  { destruct (report_lines_end host "amazon" pool ["A"; "B"] recs) as [front ->].
    apply in_or_app. right. left. reflexivity. }
  destruct (collect_all_two _ _ _ _ _ Hc) as (sa & sb & -> & Ha & Hb).
  apply collect_inv in Ha. apply collect_inv in Hb.
  destruct Ha as (Pa & _ & Da & Sa & _). destruct Hb as (Pb & _ & Db & Sb & _).
  unfold get_prod_du in Pa, Pb. unfold get_stage_du in Sa, Sb.
  change ("/nas/content/live/" ++ "A") with "/nas/content/live/A" in Pa.
  change ("/nas/content/live/" ++ "B") with "/nas/content/live/B" in Pb.
  change ("/nas/content/staging/" ++ "A") with "/nas/content/staging/A" in Sa.
  change ("/nas/content/staging/" ++ "B") with "/nas/content/staging/B" in Sb.
  rewrite A1, A2 in Pa. rewrite B1 in Pb. rewrite A3 in Sa.
  rewrite B2, B3 in Sb. rewrite A4 in Da. rewrite B4 in Db.
  simpl in Pa, Pb, Sa, Sb.
  injection Pa as Pa. injection Pb as Pb. injection Sa as Sa.
  injection Sb as Sb. injection Da as Da. injection Db as Db.
  rewrite aggregate_totals. unfold total. simpl.
  rewrite <- Pa, <- Pb, <- Sa, <- Sb, <- Da, <- Db.
  repeat split; vm_compute; reflexivity.
Qed.

Lemma end_to_end_totals_witness :
  exists recs,
    collect_all scenario_world "amazon" ["A"; "B"] = Ok recs /\
    In (totals_line "amazon" (aggregate "amazon" recs))
       (printed (report scenario_world 7 "amazon" ["A"; "B"])) /\
    fix_format (prod_du_ttl (aggregate "amazon" recs)) = "2.00G" /\
    fix_format (stage_du_ttl (aggregate "amazon" recs)) = "0B" /\
    fix_format (prod_db_ttl (aggregate "amazon" recs)) = "100.00M".
Proof.
  assert (R : report scenario_world 7 "amazon" ["A"; "B"]
              = Ok (printed (report scenario_world 7 "amazon" ["A"; "B"])))
    by (vm_compute; reflexivity).
  destruct (end_to_end_totals scenario_world 7 _
              eq_refl eq_refl eq_refl eq_refl eq_refl eq_refl eq_refl eq_refl R)
    as (recs & Hc & Hl & _ & H1 & _ & H2 & _ & H3).
  exists recs. auto.
Defined.

(** ** Vendors other than the two known tags *)

Lemma collect_all_Forall (w : world) (vendor : string) (l : list string) :
  forall recs, collect_all w vendor l = Ok recs ->
  Forall (fun st => exists install, collect w vendor install = Ok st) recs.
Proof.
  induction l as [|i l IH]; intros recs H; simpl in H.
  - injection H as <-. constructor.
  - destruct (collect w vendor i) as [st|] eqn:E; simpl in H; [|discriminate].
    destruct (collect_all w vendor l) as [sts|]; simpl in H; [|discriminate].
    injection H as <-. constructor; [exists i; exact E | now apply IH].
Qed.

Lemma total_all_zero (f : install_stats -> pynum) (recs : list install_stats) :
  Forall (fun st => f st = PyInt 0) recs -> total f recs = PyInt 0.
Proof.
  unfold total. induction 1 as [|st recs Hst _ IH]; simpl.
  - reflexivity.
  - rewrite Hst. exact IH.
Qed.



(** ** Sample evaluations *)

Example fix_format_half_even : fix_format (PyInt 1152) = "1.12K".
Proof. reflexivity. Qed.

Example fix_format_half_even_up : fix_format (PyFloat 1408) = "1.38K".
Proof. reflexivity. Qed.

Example fix_format_tera : fix_format (PyFloat 1649267441664) = "1.50T".
Proof. vm_compute. reflexivity. Qed.

Example fix_format_zero_float : fix_format (PyFloat 0) = "0.0B".
Proof. reflexivity. Qed.

Example b64_round_tie_to_even : b64_round (2 ^ 53 + 1) = 2 ^ 53.
Proof. vm_compute. reflexivity. Qed.

Example b64_round_tie_up : b64_round (2 ^ 53 + 3) = 2 ^ 53 + 4.
Proof. vm_compute. reflexivity. Qed.

Example first_token_du :
  first_token (Bytes ("4096" ++ tab ++ "/nas/content/staging/B" ++ nl))
  = Ok (Bytes "4096").
Proof. reflexivity. Qed.

Example scenario_row_B :
  row_line "amazon" "B"
    {| Multisite := "No"; Production := PyInt 0; wp_disk := PyInt 0;
       wp_data := PyFloat 0; Staging := PyInt 0; ss_data := PyInt 0 |}
  = orange ++ " B               " ++ NC
      ++ "          No           0B        0.0B         0B         0B" ++ nl.
Proof. vm_compute. reflexivity. Qed.

(** * Further properties of the code *)

(** ** Reading decimal output back *)

Lemma parse_digit_step (c : ascii) (s : string) (acc : Z) :
  is_digit c = true ->
  parse_digits (String c s) acc
  = parse_digits s (10 * acc + (Z.of_nat (nat_of_ascii c) - 48)).
Proof. intros H. simpl. now rewrite H. Qed.

Lemma parse_uint_acc (d : Decimal.uint) :
  forall acc : positive,
    parse_digits (NilEmpty.string_of_uint d) (Zpos acc)
    = Some (Zpos (Pos.of_uint_acc d acc)).
Proof.
  induction d; intros acc; cbn [NilEmpty.string_of_uint Pos.of_uint_acc];
    try reflexivity;
    rewrite parse_digit_step by reflexivity; rewrite <- IHd; f_equal;
    eval_ascii; lia.
Qed.

Lemma parse_uint (d : Decimal.uint) :
  parse_digits (NilEmpty.string_of_uint d) 0 = Some (Z.of_N (Pos.of_uint d)).
Proof.
  induction d; cbn [NilEmpty.string_of_uint Pos.of_uint];
    try reflexivity;
    rewrite parse_digit_step by reflexivity; eval_ascii;
    try exact IHd;
    cbn [Z.of_N]; rewrite <- parse_uint_acc; f_equal.
Qed.

Lemma parse_dec_uint (d : Decimal.uint) :
  parse_dec (NilZero.string_of_uint d) = Some (Z.of_N (Pos.of_uint d)).
Proof.
  unfold parse_dec, NilZero.string_of_uint.
  destruct d; try reflexivity;
    match goal with
    | |- context [NilEmpty.string_of_uint ?x] =>
        rewrite <- (parse_uint x); reflexivity
    end.
Qed.

(** What [str] prints of a non-negative int, [int] and [float] read back. *)
Lemma parse_dec_str_Z (n : Z) : 0 <= n -> parse_dec (str_Z n) = Some n.
Proof.
  intros Hn. unfold str_Z. destruct n as [|p|p]; [reflexivity| |lia].
  simpl Z.to_int. unfold NilZero.string_of_int.
  rewrite parse_dec_uint, DecimalPos.Unsigned.of_to. reflexivity.
Qed.

Lemma all_digits_uint (d : Decimal.uint) :
  all_digits (NilEmpty.string_of_uint d) = true.
Proof. induction d; simpl; auto. Qed.

Lemma all_digits_str_Z (n : Z) :
  0 <= n -> all_digits (str_Z n) = true /\ str_Z n <> EmptyString.
Proof.
  intros Hn. unfold str_Z. destruct n as [|p|p]; [split; [reflexivity|discriminate]| |lia].
  simpl Z.to_int. unfold NilZero.string_of_int, NilZero.string_of_uint.
  destruct (Pos.to_uint p) eqn:E;
    try (split; [rewrite <- E at 1 | discriminate]).
  - split; [reflexivity | discriminate].
  - rewrite E. apply (all_digits_uint (Decimal.D0 u)).
  - rewrite E. apply (all_digits_uint (Decimal.D1 u)).
  - rewrite E. apply (all_digits_uint (Decimal.D2 u)).
  - rewrite E. apply (all_digits_uint (Decimal.D3 u)).
  - rewrite E. apply (all_digits_uint (Decimal.D4 u)).
  - rewrite E. apply (all_digits_uint (Decimal.D5 u)).
  - rewrite E. apply (all_digits_uint (Decimal.D6 u)).
  - rewrite E. apply (all_digits_uint (Decimal.D7 u)).
  - rewrite E. apply (all_digits_uint (Decimal.D8 u)).
  - rewrite E. apply (all_digits_uint (Decimal.D9 u)).
Qed.

Lemma digit_not_space (c : ascii) : is_digit c = true -> is_space c = false.
Proof.
  unfold is_digit, is_space. set (n := nat_of_ascii c).
  intros H. apply andb_prop in H. destruct H as [H1 H2].
  apply Nat.leb_le in H1. apply Nat.leb_le in H2.
  destruct (Nat.eqb_spec n 32); [lia|].
  destruct (Nat.leb_spec 9 n); [|reflexivity].
  destruct (Nat.leb_spec n 13); [lia | reflexivity].
Qed.

Lemma lstrip_spaces_then (l r : string) :
  all_space l = true -> lstrip (l ++ r) = lstrip r.
Proof.
  induction l as [|c l IH]; simpl; intros H; [reflexivity|].
  apply andb_prop in H. destruct H as [H1 H2]. rewrite H1. auto.
Qed.

Lemma lstrip_digits (s r : string) :
  all_digits s = true -> s <> EmptyString -> lstrip (s ++ r) = s ++ r.
Proof.
  destruct s as [|c s]; simpl; intros H Hs; [congruence|].
  apply andb_prop in H. destruct H as [H1 _].
  now rewrite (digit_not_space c H1).
Qed.

Lemma take_word_digits (s r : string) :
  all_digits s = true -> ends_word r = true ->
  take_word (s ++ r) = s.
Proof.
  induction s as [|c s IH]; simpl; intros H Hr.
  - destruct r as [|c r]; [reflexivity|]. simpl in *.
    destruct (is_space c); [reflexivity | discriminate Hr].
  - apply andb_prop in H. destruct H as [H1 H2].
    rewrite (digit_not_space c H1). f_equal. auto.
Qed.

Lemma rstrip_spaces (r : string) : all_space r = true -> rstrip r = EmptyString.
Proof.
  induction r as [|c r IH]; simpl; intros H; [reflexivity|].
  apply andb_prop in H. destruct H as [H1 H2]. now rewrite IH, H1.
Qed.

Lemma rstrip_digits (s r : string) :
  all_digits s = true -> all_space r = true -> rstrip (s ++ r) = s.
Proof.
  induction s as [|c s IH]; simpl; intros H Hr.
  - now apply rstrip_spaces.
  - apply andb_prop in H. destruct H as [H1 H2]. rewrite IH by assumption.
    destruct s; [now rewrite (digit_not_space c H1) | reflexivity].
Qed.

(** The first field of [<digits><blank>...] is the digits. *)
Lemma first_token_digits (t : pytext) (s r : string) :
  all_digits s = true -> s <> EmptyString ->
  ends_word r = true ->
  text_of t = s ++ r -> first_token t = Ok (retext t s).
Proof.
  intros H Hs Hr E. unfold first_token.
  rewrite E, lstrip_digits, take_word_digits by assumption.
  destruct s; [congruence | reflexivity].
Qed.

(** Digits between blanks are what [strip] leaves. *)
Lemma strip_digits (t : pytext) (l s r : string) :
  all_space l = true -> all_digits s = true -> s <> EmptyString ->
  all_space r = true ->
  text_of t = l ++ s ++ r -> strip t = retext t s.
Proof.
  intros Hl H Hs Hr E. unfold strip.
  rewrite E, lstrip_spaces_then, lstrip_digits, rstrip_digits by assumption.
  reflexivity.
Qed.

Lemma b64_round_4096 (n : Z) : 0 <= n -> (b64_round n = 4096 <-> n = 4096).
Proof.
  intros Hn. split; [|intros ->; reflexivity].
  destruct (Z_lt_le_dec n (2 ^ 53)) as [L|G].
  - rewrite b64_round_exact by lia. trivial.
  - unfold b64_round. destruct (n <? 0) eqn:E; [apply Z.ltb_lt in E; lia|].
    unfold b64_round_pos. destruct (n <? 2 ^ 53) eqn:E2;
      [apply Z.ltb_lt in E2; lia|].
    cbv zeta. intros H. exfalso.
    assert (L2 : 53 <= Z.log2 n) by (apply Z.log2_le_pow2; lia).
    set (e := Z.log2 n - 52) in *.
    assert (He : 0 < e) by lia.
    assert (Hp : 0 < 2 ^ e) by (apply Z.pow_pos_nonneg; lia).
    assert (Hq : 2 ^ 52 <= n / 2 ^ e).
    { apply Z.div_le_lower_bound; [lia|].
      rewrite Z.mul_comm, <- Z.pow_add_r by lia.
      replace (52 + e) with (Z.log2 n) by lia.
      apply Z.log2_spec. lia. }
    revert H. set (q := n / 2 ^ e) in *. set (p := 2 ^ e) in *.
    assert (P52 : 2 ^ 52 = 4503599627370496) by reflexivity.
    assert (K : forall x, q <= x -> x * p = 4096 -> False).
    { intros x Hx Hxp.
      assert (x * 1 <= x * p) by (apply Z.mul_le_mono_nonneg_l; lia). lia. }
    destruct (n mod p <? 2 ^ (e - 1));
      [intros H; apply (K q); [lia | exact H]|].
    destruct (2 ^ (e - 1) <? n mod p);
      [intros H; apply (K (q + 1)); [lia | exact H]|].
    destruct (Z.even q); intros H;
      [apply (K q) | apply (K (q + 1))]; solve [lia | exact H].
Qed.

(** ** Measurements read back *)

Lemma measure_du (w : world) (cmd : list string) (n : Z) (path : string) :
  0 <= n -> check_output w cmd = du_prints n path ->
  measure w cmd = Ok (PyFloat (b64_round n)).
Proof.
  intros Hn H. unfold measure. rewrite H. unfold du_prints. cbn [bind].
  destruct (all_digits_str_Z n Hn) as [Hd Hs].
  rewrite (first_token_digits (Bytes (str_Z n ++ tab ++ path ++ nl))
             (str_Z n) (tab ++ path ++ nl) Hd Hs eq_refl eq_refl).
  cbn [bind retext]. unfold py_float. cbn [text_of].
  now rewrite parse_dec_str_Z.
Qed.

(** X1: when [du -sb] prints the byte count [n] followed by the path,
    the production collector returns the float nearest to [n], which is
    [n] itself up to 2^53; the database directory is read the same way
    on [google]. *)
Theorem get_prod_du_reads_du (w : world) (install : string) (n : Z)
    (p : string) :
  0 <= n ->
  (path_exists w ("/nas/content/live/" ++ install) = true ->
   check_output w (du_cmd ("/nas/content/live/" ++ install)) = du_prints n p ->
   get_prod_du w install = Ok (PyFloat (b64_round n)) /\
   (n <= 2 ^ 53 -> get_prod_du w install = Ok (PyFloat n))) /\
  (check_output w ["sudo"; "du"; "-sb"; "/nas/mysql/wp_" ++ install]
     = du_prints n p ->
   get_prod_db_du w "google" install = Ok (PyFloat (b64_round n))).
Proof.
  intros Hn. split.
  - intros He Hc. unfold get_prod_du. rewrite He. simpl negb. cbv iota.
    rewrite (measure_du _ _ n p Hn Hc). cbn [except_IOError].
    split; [reflexivity|].
    intros Hb. now rewrite b64_round_exact by lia.
  - intros Hc. unfold get_prod_db_du. simpl String.eqb. cbv iota.
    apply (measure_du _ _ n p Hn Hc).
Qed.

Lemma get_prod_du_reads_du_witness :
  get_prod_du scenario_world "A" = Ok (PyFloat 2147483648) /\
  get_prod_db_du db_disk_world "google" "A" = Ok (PyFloat (b64_round 5242880)).
Proof.
  split.
  - apply (proj1 (get_prod_du_reads_du scenario_world "A" 2147483648
                    "/nas/content/live/A" ltac:(lia)));
      [reflexivity | reflexivity | vm_compute; discriminate].
  - apply (proj2 (get_prod_du_reads_du db_disk_world "A" 5242880
                    "/nas/mysql/wp_A" ltac:(lia))).
    reflexivity.
Defined.

(** X2: the staging collector reads the count the same way and then
    drops exactly the value 4096: it returns 0 for [n = 4096] and the
    float nearest to [n] for every other count. *)
Theorem get_stage_du_reads_du (w : world) (install : string) (n : Z)
    (p : string) :
  0 <= n ->
  path_exists w ("/nas/content/staging/" ++ install) = true ->
  check_output w (du_cmd ("/nas/content/staging/" ++ install)) = du_prints n p ->
  get_stage_du w install
  = Ok (if n =? 4096 then PyInt 0 else PyFloat (b64_round n)).
Proof.
  intros Hn He Hc. unfold get_stage_du. rewrite He. simpl negb. cbv iota.
  rewrite (measure_du _ _ n p Hn Hc). cbn [except_IOError bind py_val].
  destruct (Z.eqb_spec n 4096) as [->|Hne]; [reflexivity|].
  destruct (Z.eqb_spec (b64_round n) 4096) as [E|_]; [|reflexivity].
  apply (proj1 (b64_round_4096 n Hn)) in E. contradiction.
Qed.

Lemma get_stage_du_reads_du_witness :
  get_stage_du overhead_world "B" = Ok (PyFloat (b64_round 4097)) /\
  get_stage_du overhead_world "A" = Ok (PyInt 0).
Proof.
  split.
  - apply (get_stage_du_reads_du overhead_world "B" 4097
             "/nas/content/staging/B"); [lia | reflexivity | reflexivity].
  - apply (get_stage_du_reads_du overhead_world "A" 4096
             "/nas/content/staging/A"); [lia | reflexivity | reflexivity].
Defined.

Lemma lstrip_all_space (s : string) :
  all_space s = true -> lstrip s = EmptyString.
Proof.
  induction s as [|c s IH]; simpl; intros H; [reflexivity|].
  apply andb_prop in H. destruct H as [H1 H2]. rewrite H1. auto.
Qed.

(** X3: output of [du] that holds no field at all (empty or blanks only)
    is not absorbed: indexing the empty split raises [IndexError], which
    the [except (IOError)] clause lets through, for production and for
    staging. *)
Theorem blank_du_output_raises (w : world) (install : string) (t : pytext) :
  all_space (text_of t) = true ->
  (path_exists w ("/nas/content/live/" ++ install) = true ->
   check_output w (du_cmd ("/nas/content/live/" ++ install)) = Ok t ->
   get_prod_du w install = Raise IndexError) /\
  (path_exists w ("/nas/content/staging/" ++ install) = true ->
   check_output w (du_cmd ("/nas/content/staging/" ++ install)) = Ok t ->
   get_stage_du w install = Raise IndexError).
Proof.
  intros Ht.
  assert (F : first_token t = Raise IndexError).
  { unfold first_token. now rewrite lstrip_all_space. }
  split; intros He Hc.
  - unfold get_prod_du, measure. rewrite He, Hc. cbn [negb bind].
    now rewrite F.
  - unfold get_stage_du, measure. rewrite He, Hc. cbn [negb bind].
    now rewrite F.
Qed.

Lemma blank_du_output_raises_witness :
  get_prod_du blank_du_world "A" = Raise IndexError /\
  get_stage_du blank_du_world "A" = Raise IndexError.
Proof.
  split.
  - apply (proj1 (blank_du_output_raises blank_du_world "A" (Bytes nl) eq_refl));
      reflexivity.
  - apply (proj2 (blank_du_output_raises blank_du_world "A" (Bytes nl) eq_refl));
      reflexivity.
Defined.

(** X4: whatever the collaborators answer, the staging collector never
    returns a usage equal to 4096. *)
Theorem get_stage_du_never_4096 (w : world) (install : string) (v : pynum) :
  get_stage_du w install = Ok v -> py_val v <> 4096.
Proof.
  unfold get_stage_du. destruct (negb _).
  - intros H. injection H as <-. discriminate.
  - destruct (except_IOError _) as [m|e]; cbn [bind]; [|discriminate].
    destruct (Z.eqb_spec (py_val m) 4096) as [E|E]; intros H;
      injection H as <-; [discriminate | exact E].
Qed.

Lemma get_stage_du_never_4096_witness :
  py_val (PyFloat 4097) <> 4096.
Proof.
  apply (get_stage_du_never_4096 overhead_world "B" (PyFloat 4097)).
  reflexivity.
Defined.

Lemma digits_not_NULL (s : string) :
  all_digits s = true -> String.eqb s "NULL" = false.
Proof.
  destruct s as [|c s]; [reflexivity|]. simpl. intros H.
  apply andb_prop in H. destruct H as [H1 _].
  destruct (Ascii.eqb_spec c "N") as [->|_]; [discriminate H1 | reflexivity].
Qed.

(** X5: when an aggregate query prints the count [n], blanks around it
    allowed, the production collector returns the float nearest to [n]
    and the staging collector the int [n] itself, at any magnitude. *)
Theorem query_results_read_back (w : world) (install : string) (t : pytext)
    (n : Z) (l r : string) :
  0 <= n -> all_space l = true -> all_space r = true ->
  text_of t = l ++ str_Z n ++ r ->
  (check_output w (prod_query_cmd install) = Ok t ->
   get_prod_db_data w install = Ok (PyFloat (b64_round n))) /\
  (check_output w (stage_query_cmd install) = Ok t ->
   get_stage_db_data w install = Ok (PyInt n)).
Proof.
  intros Hn Hl Hr Et.
  destruct (all_digits_str_Z n Hn) as [Hd Hs].
  pose proof (strip_digits t l (str_Z n) r Hl Hd Hs Hr Et) as S.
  split; intros Hc.
  - unfold get_prod_db_data, run_cli_query.
    change (check_output w _) with (check_output w (prod_query_cmd install)).
    rewrite Hc. cbn [bind]. rewrite S. unfold py_float.
    destruct t; cbn [retext text_of]; now rewrite parse_dec_str_Z.
  - unfold get_stage_db_data, run_cli_query.
    change (check_output w _) with (check_output w (stage_query_cmd install)).
    rewrite Hc. cbn [bind]. rewrite S.
    assert (N : py_eq (retext t (str_Z n)) (Str "NULL") = false).
    { destruct t; cbn [retext py_eq]; [reflexivity|].
      now apply digits_not_NULL. }
    rewrite N. unfold py_int.
    destruct t; cbn [retext text_of]; now rewrite parse_dec_str_Z.
Qed.

Lemma query_results_read_back_witness :
  get_prod_db_data scenario_world "A" = Ok (PyFloat (b64_round 104857600)) /\
  get_stage_db_data scenario_world "A" = Ok (PyInt 0).
Proof.
  split.
  - apply (proj1 (query_results_read_back scenario_world "A"
                    (Bytes ("104857600" ++ nl)) 104857600 "" nl
                    ltac:(lia) eq_refl eq_refl eq_refl)).
    reflexivity.
  - apply (proj2 (query_results_read_back scenario_world "A"
                    (Bytes ("0" ++ nl)) 0 "" nl
                    ltac:(lia) eq_refl eq_refl eq_refl)).
    reflexivity.
Defined.

(** X6: the buffer pool size is read as an int and passed through the
    unit formatter: a query printing [n] shows [fix_format n], and a
    failing query ends [get_innodb_buffer_size] with its exception. *)
Theorem get_innodb_buffer_size_reads (w : world) (t : pytext) (n : Z)
    (l r : string) (e : exn) :
  (0 <= n -> all_space l = true -> all_space r = true ->
   text_of t = l ++ str_Z n ++ r ->
   check_output w pool_query_cmd = Ok t ->
   get_innodb_buffer_size w = Ok (fix_format (PyInt n))) /\
  (check_output w pool_query_cmd = Raise e ->
   get_innodb_buffer_size w = Raise e).
Proof.
  unfold get_innodb_buffer_size, run_query.
  change (check_output w _) with (check_output w pool_query_cmd).
  split.
  - intros Hn Hl Hr Et Hc. rewrite Hc. cbn [bind].
    destruct (all_digits_str_Z n Hn) as [Hd Hs].
    rewrite (strip_digits t l (str_Z n) r Hl Hd Hs Hr Et). unfold py_int.
    destruct t; cbn [retext text_of]; now rewrite parse_dec_str_Z.
  - intros Hc. now rewrite Hc.
Qed.

Lemma get_innodb_buffer_size_reads_witness :
  get_innodb_buffer_size scenario_world = Ok (fix_format (PyInt 134217728)) /\
  fix_format (PyInt 134217728) = "128.00M".
Proof.
  split; [|reflexivity].
  apply (proj1 (get_innodb_buffer_size_reads scenario_world
                  (Bytes ("134217728" ++ nl)) 134217728 "" nl IOError));
    try reflexivity.
  lia.
Defined.

(** ** The staging database total *)

Lemma get_stage_db_data_int (w : world) (install : string) (v : pynum) :
  get_stage_db_data w install = Ok v -> is_float v = false.
Proof.
  unfold get_stage_db_data.
  destruct (run_cli_query w install _) as [t|e]; cbn [bind]; [|discriminate].
  destruct (py_eq t (Str "NULL")).
  - intros H. injection H as <-. reflexivity.
  - unfold py_int. destruct (parse_dec (text_of t)); [|discriminate].
    intros H. injection H as <-. reflexivity.
Qed.

Lemma fold_py_add_ints (f : install_stats -> pynum) (l : list install_stats) :
  Forall (fun st => is_float (f st) = false) l ->
  forall z, fold_left py_add (map f l) (PyInt z) = PyInt (z + field_sum f l).
Proof.
  induction 1 as [|st l Hst _ IH]; intros z; simpl.
  - now rewrite Z.add_0_r.
  - destruct (f st) as [x|x]; [|discriminate Hst]. simpl.
    rewrite IH. f_equal. lia.
Qed.

(** X7: staging database sizes are collected as ints, so their total is
    the exact sum at any magnitude and does not depend on the order of
    the records. *)
Theorem stage_db_total_exact (w : world) (vendor : string) (l : list string)
    (recs : list install_stats) :
  collect_all w vendor l = Ok recs ->
  stage_db_ttl (aggregate vendor recs) = PyInt (field_sum ss_data recs) /\
  forall recs', Permutation recs recs' ->
    stage_db_ttl (aggregate vendor recs') = stage_db_ttl (aggregate vendor recs).
Proof.
  intros Hc.
  assert (I : Forall (fun st => is_float (ss_data st) = false) recs).
  { eapply Forall_impl; [|apply (collect_all_Forall _ _ _ _ Hc)].
    intros st [i Hi]. apply collect_inv in Hi.
    destruct Hi as (_ & _ & _ & _ & Hs).
    apply (get_stage_db_data_int _ _ _ Hs). }
  assert (T : forall rs, Forall (fun st => is_float (ss_data st) = false) rs ->
              stage_db_ttl (aggregate vendor rs) = PyInt (field_sum ss_data rs)).
  { intros rs Hrs. rewrite aggregate_totals. cbn [stage_db_ttl].
    unfold total. now rewrite fold_py_add_ints. }
  split; [now apply T|].
  intros recs' P. rewrite !T; auto.
  - f_equal. symmetry. now apply field_sum_perm.
  - eapply Permutation_Forall; eauto.
Qed.

Lemma stage_db_total_exact_witness :
  stage_db_ttl (aggregate "amazon"
                  [stats_of (PyFloat 2147483648); stats_of (PyInt 0)])
  = PyInt 0.
Proof.
  assert (C : collect_all scenario_world "amazon" ["A"; "B"]
              = Ok [{| Multisite := "No"; Production := PyFloat 2147483648;
                       wp_disk := PyInt 0; wp_data := PyFloat 104857600;
                       Staging := PyInt 0; ss_data := PyInt 0 |};
                    {| Multisite := "No"; Production := PyInt 0;
                       wp_disk := PyInt 0; wp_data := PyFloat 0;
                       Staging := PyInt 0; ss_data := PyInt 0 |}])
    by (vm_compute; reflexivity).
  exact (proj1 (stage_db_total_exact scenario_world "amazon" _ _ C)).
Defined.

(** ** Shape of a report *)

Lemma collect_all_nth (w : world) (vendor : string) (l : list string) :
  forall recs, collect_all w vendor l = Ok recs ->
  List.length recs = List.length l /\
  forall i, (i < List.length l)%nat ->
    collect w vendor (nth i l "") = Ok (nth i recs empty_stats).
Proof.
  induction l as [|a l IH]; intros recs H; simpl in H.
  - injection H as <-. split; [reflexivity|]. simpl. intros i Hi. lia.
  - destruct (collect w vendor a) as [st|] eqn:E; cbn [bind] in H;
      [|discriminate].
    destruct (collect_all w vendor l) as [sts|]; cbn [bind] in H;
      [|discriminate].
    injection H as <-. destruct (IH sts eq_refl) as [Hl Hn].
    split; [simpl; now rewrite Hl|].
    intros [|i] Hi; simpl; [exact E|]. apply Hn. simpl in Hi. lia.
Qed.

Lemma row_lines_nth (vendor : string) (l : list string) :
  forall recs, List.length recs = List.length l ->
  List.length (row_lines vendor l recs) = List.length l /\
  forall i, (i < List.length l)%nat ->
    nth i (row_lines vendor l recs) ""
    = row_line vendor (nth i l "") (nth i recs empty_stats).
Proof.
  induction l as [|a l IH]; intros [|st recs] Hl; simpl in *; try lia.
  - split; [reflexivity|]. intros i Hi. lia.
  - destruct (IH recs ltac:(lia)) as [H1 H2].
    split; [now rewrite H1|].
    intros [|i] Hi; [reflexivity|]. apply H2. lia.
Qed.

(** X8: a completed report has ten lines around the table and exactly
    one row per entry of the install list, in the caller's order; row
    [i] shows the record collected for the [i]-th entry, so an install
    listed twice is printed (and summed) twice. *)
Theorem report_rows (w : world) (host : Z) (vendor : string)
    (l : list string) (lines : list string) :
  report w host vendor l = Ok lines ->
  List.length lines = (List.length l + 10)%nat /\
  exists recs,
    collect_all w vendor l = Ok recs /\ List.length recs = List.length l /\
    forall i, (i < List.length l)%nat ->
      collect w vendor (nth i l "") = Ok (nth i recs empty_stats) /\
      nth (6 + i) lines ""
      = row_line vendor (nth i l "") (nth i recs empty_stats).
Proof.
  intros H. destruct (report_ok_inv _ _ _ _ _ H) as (recs & pool & Hc & _ & ->).
  destruct (collect_all_nth _ _ _ _ Hc) as [Hl Hn].
  destruct (row_lines_nth vendor l recs Hl) as [Rl Rn].
  unfold report_lines. cbv zeta. split.
  - rewrite !List.length_app, Rl. simpl. lia.
  - exists recs. split; [exact Hc|]. split; [exact Hl|].
    intros i Hi. split; [now apply Hn|].
    match goal with
    | |- nth _ (?h ++ _)%list _ = _ =>
        change (6 + i)%nat with (List.length h + i)%nat; rewrite app_nth2_plus
    end.
    rewrite app_nth1 by lia. now apply Rn.
Qed.

Lemma report_rows_witness :
  List.length (printed (report scenario_world 7 "amazon" ["A"; "B"])) = 12%nat.
Proof.
  assert (R : report scenario_world 7 "amazon" ["A"; "B"]
              = Ok (printed (report scenario_world 7 "amazon" ["A"; "B"])))
    by (vm_compute; reflexivity).
  exact (proj1 (report_rows scenario_world 7 "amazon" ["A"; "B"] _ R)).
Defined.

(** ** Runs that do not complete *)

Lemma collect_all_first_failure (w : world) (vendor : string)
    (l1 : list string) (i : string) (l2 : list string) (e : exn) :
  (forall j, In j l1 -> exists st, collect w vendor j = Ok st) ->
  collect w vendor i = Raise e ->
  collect_all w vendor (l1 ++ i :: l2) = Raise e.
Proof.
  induction l1 as [|a l1 IH]; intros Hok Hi; simpl.
  - now rewrite Hi.
  - destruct (Hok a (or_introl eq_refl)) as [st ->]. cbn [bind].
    rewrite IH; auto. intros j Hj. apply Hok. now right.
Qed.

Lemma collect_all_ok (w : world) (vendor : string) (l : list string) :
  (forall j, In j l -> exists st, collect w vendor j = Ok st) ->
  exists recs, collect_all w vendor l = Ok recs.
Proof.
  induction l as [|a l IH]; intros Hok; simpl.
  - now exists [].
  - destruct (Hok a (or_introl eq_refl)) as [st ->].
    destruct IH as [recs ->]; [intros j Hj; apply Hok; now right|].
    now exists (st :: recs).
Qed.

(** X10: with an empty install list nothing is measured: the run depends
    on the buffer-pool query alone, prints the ten fixed lines without a
    row, and every total and both summary lines show [0B]. *)
Theorem report_no_installs (w : world) (host : Z) (vendor pool : string) :
  get_innodb_buffer_size w = Ok pool ->
  report w host vendor [] = Ok (report_lines host vendor pool [] []) /\
  List.length (report_lines host vendor pool [] []) = 10%nat /\
  aggregate vendor [] = sum_zero /\
  Forall (fun v => fix_format v = "0B") (total_values vendor sum_zero) /\
  fix_format (combined_disk vendor sum_zero) = "0B" /\
  fix_format (combined_db sum_zero) = "0B".
Proof.
  intros Hp. split.
  { rewrite report_eq. cbn [collect_all bind]. now rewrite Hp. }
  split; [reflexivity|]. split; [reflexivity|].
  unfold total_values, combined_disk. destruct (is_amazon vendor);
    repeat split; repeat constructor.
Qed.

Lemma report_no_installs_witness :
  report scenario_world 7 "google" []
  = Ok (report_lines 7 "google" "128.00M" [] []).
Proof.
  apply (proj1 (report_no_installs scenario_world 7 "google" "128.00M"
                  ltac:(vm_compute; reflexivity))).
Defined.

(** ** Host identity *)

(** X14: the host is the first blank-separated field of the cluster-id
    file read as an int: for a file holding the number [n], blanks
    around it allowed, it is [n]; a file with no field raises
    [IndexError]; a file that cannot be opened passes its exception
    on. *)
Theorem host_id_reads (n : Z) (l r content : string) (e : exn) :
  (0 <= n -> all_space l = true -> ends_word r = true ->
   host_id (Ok (l ++ str_Z n ++ r)) = Ok (PyInt n)) /\
  (all_space content = true -> host_id (Ok content) = Raise IndexError) /\
  host_id (Raise e) = Raise e.
Proof.
  split; [|split; [|reflexivity]].
  - intros Hn Hl Hr. destruct (all_digits_str_Z n Hn) as [Hd Hs].
    unfold host_id, get_host, first_token. cbn [bind text_of].
    rewrite lstrip_spaces_then, lstrip_digits, take_word_digits by assumption.
    destruct (str_Z n) eqn:E; [congruence|]. cbn [bind retext].
    unfold py_int. cbn [text_of]. rewrite <- E. now rewrite parse_dec_str_Z.
  - intros H. unfold host_id, get_host, first_token. cbn [bind text_of].
    now rewrite lstrip_all_space.
Qed.

Lemma host_id_reads_witness :
  host_id (Ok ("31337" ++ nl)) = Ok (PyInt 31337) /\
  host_id (Ok nl) = Raise IndexError.
Proof.
  split.
  - apply (proj1 (host_id_reads 31337 "" nl "" IOError));
      [lia | reflexivity | reflexivity].
  - apply (proj1 (proj2 (host_id_reads 0 "" "" nl IOError))). reflexivity.
Defined.

(** ** The dictionary of records *)

Lemma dict_get_keys (d : dict) (k : string) :
  dict_get d k <> None <-> In k (keys d).
Proof.
  induction d as [|[k0 st0] d IH]; simpl.
  - split; [congruence | tauto].
  - destruct (String.eqb_spec k0 k) as [->|N].
    + split; [auto | discriminate].
    + rewrite IH. split; [auto | intros [E|H]; [congruence | exact H]].
Qed.

Lemma dict_set_keys (d : dict) (k : string) (st : install_stats) :
  (forall k', In k' (keys (dict_set d k st)) <-> In k' (keys d) \/ k' = k) /\
  (NoDup (keys d) -> NoDup (keys (dict_set d k st))).
Proof.
  induction d as [|[k0 st0] d [IH1 IH2]]; simpl.
  - split; [intros k'; split; [intros [E|[]]; auto | intros [[]|E]; auto]|].
    intros _. constructor; [tauto | constructor].
  - destruct (String.eqb_spec k0 k) as [->|N]; simpl.
    + split; [|trivial]. intros k'. split; [auto | intros [H|H]; auto].
    + split.
      * intros k'. rewrite IH1. tauto.
      * intros H. inversion H as [|? ? Hn Hd]; subst.
        constructor; [|auto]. rewrite IH1. intros [H1|H1]; congruence.
Qed.

Lemma fill_stats_keys (w : world) (vendor : string) (l : list string) :
  forall d d', fill_stats w vendor l d = Ok d' ->
  (forall k, In k (keys d') <-> In k (keys d) \/ In k l) /\
  (NoDup (keys d) -> NoDup (keys d')).
Proof.
  induction l as [|i l IH]; intros d d' H; simpl in H.
  - injection H as <-. split; [intros k; simpl; tauto | trivial].
  - destruct (collect w vendor i) as [st|]; cbn [bind] in H; [|discriminate].
    destruct (IH _ _ H) as [H1 H2].
    destruct (dict_set_keys d i st) as [S1 S2]. split.
    + intros k. rewrite H1, S1. simpl. intuition congruence.
    + auto.
Qed.

(** X15: the dictionary built for an install list holds one entry per
    distinct install name (a name listed twice is stored once), its keys
    are exactly the listed names, and looking a listed name up gives the
    record collected for that name. *)
Theorem create_install_stats_dictionary_entries (w : world) (vendor : string)
    (l : list string) (d : dict) :
  create_install_stats_dictionary w vendor l = Ok d ->
  NoDup (keys d) /\
  (forall k, In k (keys d) <-> In k l) /\
  (forall k, In k l ->
     exists st, dict_get d k = Some st /\ collect w vendor k = Ok st) /\
  (forall k, ~ In k l -> dict_get d k = None).
Proof.
  unfold create_install_stats_dictionary. intros H.
  destruct (fill_stats_keys w vendor l [] d H) as [K N].
  assert (Ok' : dict_ok w vendor d).
  { destruct (collect_all w vendor l) as [recs|e] eqn:E.
    - destruct (fill_stats_ok w vendor l [] recs) as (d' & Hf & Hd & _);
        [intros k st Hk; discriminate Hk | exact E|].
      rewrite H in Hf. now injection Hf as ->.
    - rewrite (fill_stats_raise w vendor l [] e E) in H. discriminate H. }
  split; [apply N; constructor|]. split.
  { intros k. rewrite K. simpl. tauto. }
  split.
  - intros k Hk. destruct (dict_get d k) as [st|] eqn:G.
    + exists st. split; [reflexivity | now apply Ok'].
    + exfalso. apply (proj2 (dict_get_keys d k)); [|exact G].
      apply K. now right.
  - intros k Hk. destruct (dict_get d k) eqn:G; [|reflexivity].
    exfalso. apply Hk. assert (I : In k (keys d)).
    { apply dict_get_keys. congruence. }
    apply K in I. destruct I as [[]|I]. exact I.
Qed.

Lemma create_install_stats_dictionary_entries_witness :
  NoDup (keys (match create_install_stats_dictionary scenario_world "amazon"
                       ["A"; "B"; "A"] with
               | Ok d => d
               | Raise _ => []
               end)).
Proof.
  assert (C : create_install_stats_dictionary scenario_world "amazon"
                ["A"; "B"; "A"]
              = Ok (match create_install_stats_dictionary scenario_world
                            "amazon" ["A"; "B"; "A"] with
                    | Ok d => d
                    | Raise _ => []
                    end)) by (vm_compute; reflexivity).
  exact (proj1 (create_install_stats_dictionary_entries scenario_world
                  "amazon" ["A"; "B"; "A"] _ C)).
Defined.

(** ** Bytes and text *)

Lemma mk_world_bytes (dirs : list string)
    (table : list (list string * result pytext)) (s : string) :
  Forall (fun entry => match snd entry with
                       | Ok (Str _) => False
                       | _ => True
                       end) table ->
  py3_world (mk_world dirs table (Ok (Bytes s))).
Proof.
  intros H cmd out. simpl. induction H as [|[c r] table Hr _ IH]; simpl.
  - intros E. injection E as <-. now exists s.
  - destruct (cmd_eqb c cmd); [|exact IH]. intros ->. simpl in Hr.
    destruct out as [b|b]; [now exists b | contradiction].
Qed.

(** X16: when every command output is [bytes], as under python3, the two
    comparisons with a [str] literal never hold: the multisite status is
    never [Yes], and a staging aggregate printing [NULL] is not turned
    into 0 but raises [ValueError]. *)
Theorem bytes_never_match (w : world) (install : string) :
  py3_world w ->
  check_multisite w install <> Ok "Yes" /\
  (forall out l r,
     check_output w (stage_query_cmd install) = Ok out ->
     all_space l = true -> all_space r = true ->
     text_of out = l ++ "NULL" ++ r ->
     get_stage_db_data w install = Raise ValueError).
Proof.
  intros Hw. split.
  - intros H. unfold check_multisite in H.
    destruct (check_output w _) as [mu|e] eqn:E; cbn [bind] in H;
      [|discriminate H].
    destruct (Hw _ _ E) as [s ->]. discriminate H.
  - intros out l r Hc Hl Hr Et. unfold get_stage_db_data, run_cli_query.
    change (check_output w _) with (check_output w (stage_query_cmd install)).
    rewrite Hc. cbn [bind]. destruct (Hw _ _ Hc) as [s ->].
    unfold strip. cbn [text_of retext py_eq] in *. subst s.
    rewrite lstrip_spaces_then by assumption.
    change (lstrip ("NULL" ++ r)) with ("NULL" ++ r).
    assert (R : rstrip ("NULL" ++ r) = "NULL").
    { simpl. now rewrite rstrip_spaces. }
    rewrite R. reflexivity.
Qed.

Lemma bytes_never_match_witness :
  check_multisite null_stage_world "A" <> Ok "Yes" /\
  get_stage_db_data null_stage_world "A" = Raise ValueError.
Proof.
  assert (P : py3_world null_stage_world).
  { apply mk_world_bytes. repeat constructor. }
  destruct (bytes_never_match null_stage_world "A" P) as [H1 H2].
  split; [exact H1|].
  apply (H2 (Bytes ("NULL" ++ nl)) "" nl); reflexivity.
Defined.

(** ** Range of the scaled value *)

Lemma fix_format_scaled (v : pynum) (d : Z) (u : string) :
  0 < d -> 0 <= py_val v <= 2 ^ 53 ->
  exists c, 2 * Z.abs (100 * py_val v - c * d) <= d /\
    scaled_2f v d ++ u
    = str_Z (c / 100) ++ "."
        ++ String (digit_char (c / 10 mod 10))
             (String (digit_char (c mod 10)) u).
Proof.
  intros Hd Hv.
  destruct (fmt_2f_renders (to_float v) d u) as (c & _ & Hb & _ & _ & Es);
    [apply to_float_nonneg; lia | exact Hd |].
  rewrite to_float_small in Hb by lia. exists c. split; [exact Hb | exact Es].
Qed.

(** X17: in the [K], [M] and [G] ranges the number shown lies between
    1.00 and 1024.00, both included: rounding to two decimals can lift a
    value just under the next threshold to [1024.00] of the smaller
    unit. *)
Theorem fix_format_scaled_range (v : pynum) :
  (1024 <= py_val v < 1024 ^ 2 ->
   exists c, 100 <= c <= 102400 /\
     fix_format v = str_Z (c / 100) ++ "."
       ++ String (digit_char (c / 10 mod 10))
            (String (digit_char (c mod 10)) "K")) /\
  (1024 ^ 2 <= py_val v < 1024 ^ 3 ->
   exists c, 100 <= c <= 102400 /\
     fix_format v = str_Z (c / 100) ++ "."
       ++ String (digit_char (c / 10 mod 10))
            (String (digit_char (c mod 10)) "M")) /\
  (1024 ^ 3 <= py_val v < 1024 ^ 4 ->
   exists c, 100 <= c <= 102400 /\
     fix_format v = str_Z (c / 100) ++ "."
       ++ String (digit_char (c / 10 mod 10))
            (String (digit_char (c mod 10)) "G")).
Proof.
  change (1024 ^ 2) with 1048576. change (1024 ^ 3) with 1073741824.
  change (1024 ^ 4) with 1099511627776.
  split; [|split]; intros Hr; unfold fix_format; cbv zeta.
  - destruct (fix_format_scaled v 1024 "K") as (c & Hb & Es); [lia | lia |].
    ltb_cases; try lia; simpl andb; cbv iota.
    exists c. split; [lia | exact Es].
  - destruct (fix_format_scaled v (1024 * 1024) "M") as (c & Hb & Es);
      [lia | lia |].
    ltb_cases; try lia; simpl andb; cbv iota.
    exists c. split; [lia | exact Es].
  - destruct (fix_format_scaled v (1024 * 1024 * 1024) "G") as (c & Hb & Es);
      [lia | lia |].
    ltb_cases; try lia; simpl andb; cbv iota.
    exists c. split; [lia | exact Es].
Qed.

Lemma fix_format_scaled_range_witness :
  (exists c, 100 <= c <= 102400 /\
     fix_format (PyFloat 1048575) = str_Z (c / 100) ++ "."
       ++ String (digit_char (c / 10 mod 10))
            (String (digit_char (c mod 10)) "K")) /\
  fix_format (PyFloat 1048575) = "1024.00K".
Proof.
  split; [|reflexivity].
  apply (proj1 (fix_format_scaled_range (PyFloat 1048575))). simpl. lia.
Defined.

(** ** Totals of two batches *)

Lemma field_sum_app (f : install_stats -> pynum) (l1 l2 : list install_stats) :
  field_sum f (l1 ++ l2) = field_sum f l1 + field_sum f l2.
Proof. induction l1 as [|st l1 IH]; simpl; lia. Qed.

Lemma any_float_app (f : install_stats -> pynum) (l1 l2 : list install_stats) :
  any_float f (l1 ++ l2) = any_float f l1 || any_float f l2.
Proof. unfold any_float. apply existsb_app. Qed.

Lemma field_sum_nonneg (f : install_stats -> pynum) (l : list install_stats) :
  Forall (fun st => 0 <= py_val (f st)) l -> 0 <= field_sum f l.
Proof. induction 1; simpl; lia. Qed.

Lemma total_app (f : install_stats -> pynum) (l1 l2 : list install_stats) :
  field_exact f (l1 ++ l2) ->
  total f (l1 ++ l2) = py_add (total f l1) (total f l2).
Proof.
  intros [Hf Hs]. apply Forall_app in Hf. destruct Hf as [F1 F2].
  rewrite field_sum_app in Hs.
  pose proof (field_sum_nonneg f l1 F1). pose proof (field_sum_nonneg f l2 F2).
  rewrite (total_exact f (l1 ++ l2)), (total_exact f l1), (total_exact f l2);
    try (split; [assumption | rewrite ?field_sum_app; lia]);
    try (split; [apply Forall_app; auto | rewrite field_sum_app; lia]).
  rewrite py_add_exact; rewrite ?mk_num_val, ?mk_num_float; try lia.
  now rewrite field_sum_app, any_float_app.
Qed.

(** X18: within the exact range (non-negative counts, sums up to 2^53)
    the totals of a list of records split in two batches are the Python
    sums of the totals of the batches, field by field. *)
Theorem aggregate_batches (vendor : string) (l1 l2 : list install_stats) :
  exact_range (l1 ++ l2) ->
  let t := aggregate vendor (l1 ++ l2) in
  let t1 := aggregate vendor l1 in
  let t2 := aggregate vendor l2 in
  prod_du_ttl t = py_add (prod_du_ttl t1) (prod_du_ttl t2) /\
  prod_db_du_ttl t = py_add (prod_db_du_ttl t1) (prod_db_du_ttl t2) /\
  prod_db_ttl t = py_add (prod_db_ttl t1) (prod_db_ttl t2) /\
  stage_du_ttl t = py_add (stage_du_ttl t1) (stage_du_ttl t2) /\
  stage_db_ttl t = py_add (stage_db_ttl t1) (stage_db_ttl t2).
Proof.
  intros (H1 & H2 & H3 & H4 & H5). cbv zeta. rewrite !aggregate_totals.
  cbn [prod_du_ttl prod_db_du_ttl prod_db_ttl stage_du_ttl stage_db_ttl].
  rewrite (total_app Production), (total_app wp_data), (total_app Staging),
    (total_app ss_data) by assumption.
  repeat split. destruct (is_amazon vendor); [reflexivity|].
  now apply total_app.
Qed.

Lemma aggregate_batches_witness :
  prod_du_ttl (aggregate "google" (small_first ++ small_last))
  = py_add (prod_du_ttl (aggregate "google" small_first))
           (prod_du_ttl (aggregate "google" small_last)).
Proof.
  apply (aggregate_batches "google" small_first small_last).
  unfold exact_range, field_exact, small_first, small_last.
  repeat split; try (repeat constructor; simpl; lia); simpl; lia.
Defined.

(** ** What the table shows of the database disk usage *)

(** Where the title, the rows and the totals stand in a printed report. *)
Lemma report_table (w : world) (host : Z) (vendor : string)
    (l : list string) (lines : list string) :
  report w host vendor l = Ok lines ->
  exists recs,
    collect_all w vendor l = Ok recs /\
    List.length recs = List.length l /\
    nth 4 lines "" = title_line vendor /\
    (forall i, (i < List.length l)%nat ->
       collect w vendor (nth i l "") = Ok (nth i recs empty_stats) /\
       nth (6 + i) lines ""
       = row_line vendor (nth i l "") (nth i recs empty_stats)) /\
    nth (7 + List.length l) lines "" = totals_line vendor (aggregate vendor recs).
Proof.
  intros H. destruct (report_ok_inv _ _ _ _ _ H) as (recs & pool & Hc & _ & ->).
  destruct (collect_all_nth _ _ _ _ Hc) as [Hl Hn].
  destruct (row_lines_nth vendor l recs Hl) as [Rl Rn].
  exists recs. split; [exact Hc|]. split; [exact Hl|].
  unfold report_lines. cbv zeta. split; [reflexivity|]. split.
  - intros i Hi. split; [now apply Hn|].
    match goal with
    | |- nth _ (?h ++ _)%list _ = _ =>
        change (6 + i)%nat with (List.length h + i)%nat; rewrite app_nth2_plus
    end.
    rewrite app_nth1 by lia. now apply Rn.
  - match goal with
    | |- nth _ (?h ++ _)%list _ = _ =>
        replace (7 + List.length l)%nat
          with (List.length h + (List.length (row_lines vendor l recs) + 1))%nat
          by (rewrite Rl; simpl; lia);
        rewrite app_nth2_plus
    end.
    rewrite app_nth2_plus. reflexivity.
Qed.

Lemma collect_wp_disk (w : world) (vendor install : string) (st : install_stats) :
  collect w vendor install = Ok st ->
  get_prod_db_du w vendor install = Ok (wp_disk st).
Proof. intros H. now apply collect_inv in H. Qed.

(** C2: on the [amazon] variant (database not on local disk) every
    collected production database disk usage is 0 and the printed
    table has six columns, none for it, in the title, in each row and
    in the totals; on the [google] variant it is the measured size of
    the database directory and the printed title, rows and totals
    carry it as the fourth of seven columns. *)
Theorem prod_db_disk_gating (w : world) (host : Z) (l : list string)
    (lines : list string) :
  (report w host "amazon" l = Ok lines ->
   nth 4 lines ""
   = green ++ " "
       ++ "Install            Multisite   Production     Prod DB    Staging   Stage DB"
       ++ " " ++ NC ++ nl /\
   exists recs,
     collect_all w "amazon" l = Ok recs /\
     (forall i, (i < List.length l)%nat ->
        let install := nth i l "" in
        let st := nth i recs empty_stats in
        collect w "amazon" install = Ok st /\
        wp_disk st = PyInt 0 /\
        nth (6 + i) lines ""
        = py_print
            [format [Plain; Plain; AlignL 16; Plain; AlignR 12; AlignR 13;
                     AlignR 12; AlignR 11; AlignR 11]
               [orange; " "; install; NC; Multisite st;
                fix_format (Production st); fix_format (wp_data st);
                fix_format (Staging st); fix_format (ss_data st)]]) /\
     let t := aggregate "amazon" recs in
     prod_db_du_ttl t = PyInt 0 /\
     nth (7 + List.length l) lines ""
     = py_print
         [green;
          format [Plain; AlignR 26; AlignR 12; AlignR 12; AlignR 11; AlignR 11]
            ["Totals:"; NC; fix_format (prod_du_ttl t);
             fix_format (prod_db_ttl t); fix_format (stage_du_ttl t);
             fix_format (stage_db_ttl t)]]) /\
  (report w host "google" l = Ok lines ->
   nth 4 lines ""
   = green ++ " "
       ++ "Install            Multisite   Production   Prod DB DU     Prod DB    Staging   Staging DB"
       ++ " " ++ NC ++ nl /\
   exists recs,
     collect_all w "google" l = Ok recs /\
     (forall i, (i < List.length l)%nat ->
        let install := nth i l "" in
        let st := nth i recs empty_stats in
        collect w "google" install = Ok st /\
        measure w ["sudo"; "du"; "-sb"; "/nas/mysql/wp_" ++ install]
          = Ok (wp_disk st) /\
        nth (6 + i) lines ""
        = py_print
            [format [Plain; Plain; AlignL 14; Plain; AlignR 14; AlignR 13;
                     AlignR 13; AlignR 12; AlignR 11; AlignR 13]
               [orange; " "; install; NC; Multisite st;
                fix_format (Production st); fix_format (wp_disk st);
                fix_format (wp_data st); fix_format (Staging st);
                fix_format (ss_data st)]]) /\
     let t := aggregate "google" recs in
     prod_db_du_ttl t = total wp_disk recs /\
     nth (7 + List.length l) lines ""
     = py_print
         [green;
          format [Plain; AlignR 26; AlignR 12; AlignR 13; AlignR 11; AlignR 12;
                  AlignR 13]
            ["Totals:"; NC; fix_format (prod_du_ttl t);
             fix_format (prod_db_du_ttl t); fix_format (prod_db_ttl t);
             fix_format (stage_du_ttl t); fix_format (stage_db_ttl t)]]).
Proof.
  split; intros H;
    destruct (report_table _ _ _ _ _ H) as (recs & Hc & Hl & Ht & Hr & Hs).
  - split; [rewrite Ht; reflexivity|].
    exists recs. split; [exact Hc|]. split.
    + intros i Hi. cbv zeta. destruct (Hr i Hi) as [Ci Ri].
      split; [exact Ci|]. split.
      * apply collect_wp_disk in Ci. now injection Ci as <-.
      * rewrite Ri. reflexivity.
    + cbv zeta. split.
      * rewrite aggregate_totals. reflexivity.
      * rewrite Hs. reflexivity.
  - split; [rewrite Ht; reflexivity|].
    exists recs. split; [exact Hc|]. split.
    + intros i Hi. cbv zeta. destruct (Hr i Hi) as [Ci Ri].
      split; [exact Ci|]. split.
      * apply collect_wp_disk in Ci. exact Ci.
      * rewrite Ri. reflexivity.
    + cbv zeta. split.
      * rewrite aggregate_totals. reflexivity.
      * rewrite Hs. reflexivity.
Qed.

Lemma prod_db_disk_gating_witness :
  nth 4 (printed (report db_disk_world 7 "google" ["A"])) ""
  = green ++ " "
      ++ "Install            Multisite   Production   Prod DB DU     Prod DB    Staging   Staging DB"
      ++ " " ++ NC ++ nl /\
  (exists st,
     collect db_disk_world "google" "A" = Ok st /\
     measure db_disk_world ["sudo"; "du"; "-sb"; "/nas/mysql/wp_" ++ "A"]
       = Ok (wp_disk st) /\
     fix_format (wp_disk st) = "5.00M") /\
  (exists st,
     collect scenario_world "amazon" "A" = Ok st /\ wp_disk st = PyInt 0).
Proof.
  assert (G : report db_disk_world 7 "google" ["A"]
              = Ok (printed (report db_disk_world 7 "google" ["A"])))
    by (vm_compute; reflexivity).
  assert (A : report scenario_world 7 "amazon" ["A"; "B"]
              = Ok (printed (report scenario_world 7 "amazon" ["A"; "B"])))
    by (vm_compute; reflexivity).
  destruct (proj2 (prod_db_disk_gating db_disk_world 7 ["A"] _) G)
    as (Ht & recs & _ & Hr & _).
  destruct (proj1 (prod_db_disk_gating scenario_world 7 ["A"; "B"] _) A)
    as (_ & recs' & _ & Hr' & _).
  split; [exact Ht|]. split.
  - destruct (Hr 0%nat ltac:(simpl; lia)) as (Ci & Mi & _).
    exists (nth 0 recs empty_stats). split; [exact Ci|]. split; [exact Mi|].
    assert (M : measure db_disk_world ["sudo"; "du"; "-sb"; "/nas/mysql/wp_" ++ "A"]
                = Ok (PyFloat 5242880)) by (vm_compute; reflexivity).
    cbv zeta in Mi. simpl nth in Mi. rewrite M in Mi. injection Mi as <-.
    reflexivity.
  - destruct (Hr' 0%nat ltac:(simpl; lia)) as (Ci & Zi & _).
    exists (nth 0 recs' empty_stats). split; [exact Ci | exact Zi].
Defined.

(** ** Vendors other than the two known tags *)

(** C10: the layout is chosen by comparing the tag with [amazon] alone,
    so under every other tag, known or not, the printed title, rows and
    totals have the seven columns with [Prod DB DU] fourth; the database
    directory is measured only for the tag [google], so under any third
    tag every row and the totals show [0B] in that column. *)
Theorem vendor_other_than_amazon (w : world) (host : Z) (vendor : string)
    (l : list string) (lines : list string) :
  vendor <> "amazon" ->
  report w host vendor l = Ok lines ->
  nth 4 lines ""
  = green ++ " "
      ++ "Install            Multisite   Production   Prod DB DU     Prod DB    Staging   Staging DB"
      ++ " " ++ NC ++ nl /\
  exists recs,
    collect_all w vendor l = Ok recs /\
    (forall i, (i < List.length l)%nat ->
       let install := nth i l "" in
       let st := nth i recs empty_stats in
       collect w vendor install = Ok st /\
       get_prod_db_du w vendor install
       = (if String.eqb vendor "google"
          then measure w ["sudo"; "du"; "-sb"; "/nas/mysql/wp_" ++ install]
          else Ok (PyInt 0)) /\
       nth (6 + i) lines ""
       = py_print
           [format [Plain; Plain; AlignL 14; Plain; AlignR 14; AlignR 13;
                    AlignR 13; AlignR 12; AlignR 11; AlignR 13]
              [orange; " "; install; NC; Multisite st;
               fix_format (Production st); fix_format (wp_disk st);
               fix_format (wp_data st); fix_format (Staging st);
               fix_format (ss_data st)]] /\
       (vendor <> "google" ->
        wp_disk st = PyInt 0 /\ fix_format (wp_disk st) = "0B")) /\
    let t := aggregate vendor recs in
    nth (7 + List.length l) lines ""
    = py_print
        [green;
         format [Plain; AlignR 26; AlignR 12; AlignR 13; AlignR 11; AlignR 12;
                 AlignR 13]
           ["Totals:"; NC; fix_format (prod_du_ttl t);
            fix_format (prod_db_du_ttl t); fix_format (prod_db_ttl t);
            fix_format (stage_du_ttl t); fix_format (stage_db_ttl t)]] /\
    (vendor <> "google" ->
     prod_db_du_ttl t = PyInt 0 /\ fix_format (prod_db_du_ttl t) = "0B").
Proof.
  intros Ha H. apply String.eqb_neq in Ha.
  destruct (report_table _ _ _ _ _ H) as (recs & Hc & Hl & Ht & Hr & Hs).
  assert (Z0 : vendor <> "google" ->
               Forall (fun st => wp_disk st = PyInt 0) recs).
  { intros Hg. apply String.eqb_neq in Hg.
    eapply Forall_impl; [|apply (collect_all_Forall _ _ _ _ Hc)].
    intros st [install Hi]. apply collect_wp_disk in Hi.
    unfold get_prod_db_du in Hi. rewrite Hg in Hi. now injection Hi as <-. }
  split.
  { rewrite Ht. unfold title_line, titles, header, is_amazon. rewrite Ha.
    reflexivity. }
  exists recs. split; [exact Hc|]. split.
  - intros i Hi. cbv zeta. destruct (Hr i Hi) as [Ci Ri].
    split; [exact Ci|]. split; [reflexivity|]. split.
    + rewrite Ri. unfold row_line, body, row_values, is_amazon. rewrite Ha.
      reflexivity.
    + intros Hg.
      assert (E : wp_disk (nth i recs empty_stats) = PyInt 0).
      { pose proof (Z0 Hg) as F. rewrite Forall_forall in F. apply F.
        apply nth_In. lia. }
      split; [exact E | now rewrite E].
  - cbv zeta. split.
    + rewrite Hs. unfold totals_line, footer, total_values, is_amazon.
      rewrite Ha. reflexivity.
    + intros Hg.
      assert (E : prod_db_du_ttl (aggregate vendor recs) = PyInt 0).
      { rewrite aggregate_totals. cbn [prod_db_du_ttl]. unfold is_amazon.
        rewrite Ha. apply total_all_zero. now apply Z0. }
      split; [exact E | now rewrite E].
Qed.

Lemma vendor_other_than_amazon_witness :
  nth 4 (printed (report db_disk_world 7 "azure" ["A"])) ""
  = green ++ " "
      ++ "Install            Multisite   Production   Prod DB DU     Prod DB    Staging   Staging DB"
      ++ " " ++ NC ++ nl /\
  exists recs,
    collect_all db_disk_world "azure" ["A"] = Ok recs /\
    fix_format (wp_disk (nth 0 recs empty_stats)) = "0B" /\
    fix_format (prod_db_du_ttl (aggregate "azure" recs)) = "0B".
Proof.
  assert (N : "azure" <> "amazon") by discriminate.
  assert (G : "azure" <> "google") by discriminate.
  assert (R : report db_disk_world 7 "azure" ["A"]
              = Ok (printed (report db_disk_world 7 "azure" ["A"])))
    by (vm_compute; reflexivity).
  destruct (vendor_other_than_amazon db_disk_world 7 "azure" ["A"] _ N R)
    as (Ht & recs & Hc & Hr & _ & Hz).
  split; [exact Ht|]. exists recs. split; [exact Hc|]. split.
  - destruct (Hr 0%nat ltac:(simpl; lia)) as (_ & _ & _ & Hd).
    exact (proj2 (Hd G)).
  - exact (proj2 (Hz G)).
Defined.

(** ** What a run has printed when it ends *)

Lemma print_loop_ok (w : world) (vendor : string) (d : dict)
    (l : list string) (recs : list install_stats) (t : sum_dictionary) :
  dict_ok w vendor d -> (forall k, In k l -> dict_get d k <> None) ->
  collect_all w vendor l = Ok recs ->
  print_loop vendor d l t =
  (row_lines vendor l recs, Ok (fold_left (add_stats vendor) recs t)).
Proof.
  intros Hd. revert recs t.
  induction l as [|i l IH]; intros recs t Hin H; simpl in *.
  - injection H as <-. reflexivity.
  - unfold lookup. destruct (dict_get d i) as [st|] eqn:Eg;
      [|exfalso; apply (Hin i); auto].
    rewrite (Hd _ _ Eg) in H. cbn [bind] in H.
    destruct (collect_all w vendor l) as [sts|e'] eqn:E; cbn [bind] in H;
      [|discriminate].
    injection H as <-.
    rewrite (IH sts (add_stats vendor t st)); auto.
Qed.

Lemma run_eq (w : world) (host : Z) (vendor : string) (l : list string) :
  run w host vendor l =
  match collect_all w vendor l with
  | Raise e => (banner, Some e)
  | Ok recs =>
      match get_innodb_buffer_size w with
      | Raise e =>
          ((banner
            ++ [py_print [ltgreen; (nl ++ " Pod:")%string; NC; str_Z host]])%list,
           Some e)
      | Ok pool => (report_lines host vendor pool l recs, None)
      end
  end.
Proof.
  unfold run, create_install_stats_dictionary.
  destruct (collect_all w vendor l) as [recs|e] eqn:E.
  - destruct (fill_stats_ok w vendor l [] recs) as [d' [Hf [Hok [_ Hin]]]]; auto.
    { intros k st H. discriminate H. }
    rewrite Hf.
    destruct (get_innodb_buffer_size w) as [pool|e]; [|reflexivity].
    rewrite (print_loop_ok w vendor d' l recs sum_zero Hok Hin E).
    reflexivity.
  - now rewrite (fill_stats_raise w vendor l [] e E).
Qed.

(** X9: what a run that does not complete has printed.  If collecting
    some listed install raises, the run ends with the exception of the
    first such install after the two banner lines alone; if every
    install is collected but the buffer-pool query raises, it ends after
    the banner and the [Pod:] line; in no failing run is a line of the
    table printed (at most three lines are out), and a run without an
    exception has printed exactly the report. *)
Theorem run_failure_output (w : world) (host : Z) (vendor : string)
    (l : list string) :
  (forall l1 i l2 e,
     l = (l1 ++ i :: l2)%list ->
     (forall j, In j l1 -> exists st, collect w vendor j = Ok st) ->
     collect w vendor i = Raise e ->
     run w host vendor l = (banner, Some e)) /\
  (forall e,
     (forall j, In j l -> exists st, collect w vendor j = Ok st) ->
     get_innodb_buffer_size w = Raise e ->
     run w host vendor l
     = ((banner
         ++ [py_print [ltgreen; (nl ++ " Pod:")%string; NC; str_Z host]])%list,
        Some e)) /\
  (forall out e,
     run w host vendor l = (out, Some e) ->
     (List.length out <= 3)%nat /\
     ~ In (title_line vendor) out /\ report w host vendor l = Raise e) /\
  (forall out,
     run w host vendor l = (out, None) <-> report w host vendor l = Ok out).
Proof.
  assert (T : forall v, title_line v <> nth 0 banner "" /\
                        title_line v <> nth 1 banner "" /\
                        forall h, title_line v
                                  <> py_print [ltgreen; (nl ++ " Pod:")%string;
                                               NC; str_Z h]).
  { intros v. unfold title_line, titles, header.
    destruct (is_amazon v); repeat split; try discriminate;
      intros h; discriminate. }
  split; [|split; [|split]].
  - intros l1 i l2 e -> Hok Hi. rewrite run_eq.
    now rewrite (collect_all_first_failure w vendor l1 i l2 e Hok Hi).
  - intros e Hok Hp. rewrite run_eq.
    destruct (collect_all_ok w vendor l Hok) as [recs ->]. now rewrite Hp.
  - intros out e. rewrite run_eq, report_eq.
    destruct (collect_all w vendor l) as [recs|e1]; cbn [bind].
    + destruct (get_innodb_buffer_size w) as [pool|e2]; cbn [bind];
        intros H; [discriminate H|]. injection H as <- <-.
      split; [simpl; lia|]. split; [|reflexivity].
      destruct (T vendor) as (T0 & T1 & T2). simpl.
      intros [E|[E|[E|[]]]]; [apply T0 | apply T1 | apply (T2 host)];
        symmetry; exact E.
    + intros H. injection H as <- <-.
      split; [simpl; lia|]. split; [|reflexivity].
      destruct (T vendor) as (T0 & T1 & _). simpl.
      intros [E|[E|[]]]; [apply T0 | apply T1]; symmetry; exact E.
  - intros out. rewrite run_eq, report_eq.
    destruct (collect_all w vendor l) as [recs|e1]; cbn [bind].
    + destruct (get_innodb_buffer_size w) as [pool|e2]; cbn [bind].
      * split; intros H; injection H as <-; reflexivity.
      * split; intros H; discriminate H.
    + split; intros H; discriminate H.
Qed.

Lemma run_failure_output_witness :
  run null_prod_world 1 "amazon" ["B"; "A"; "C"] = (banner, Some ValueError).
Proof.
  apply (proj1 (run_failure_output null_prod_world 1 "amazon"
                  ["B"; "A"; "C"]) ["B"] "A" ["C"] ValueError eq_refl).
  - intros j [<-|[]]. eexists. vm_compute. reflexivity.
  - vm_compute. reflexivity.
Defined.
